(** * JsonDatabase: the REST client of [dbaccess_rest.py]

    A shallow embedding of the [JsonDatabase] class.  The remote document
    store is an explicit component of the state: every HTTP call is a step
    of a request handler, and every request sent is recorded, so that
    statements about which requests are issued, and in which order, are
    statements about a list.

    Part I holds the definitions: JSON values and the Python operations
    on them, the transport, the client, and what the statements need (the
    shape of a query page, a scripted remote, a reference store).
    Part II holds the lemmas and the properties of the client. *)

From Stdlib Require Import ZArith List String Ascii Bool Lia DecimalString.
Import ListNotations.

Open Scope string_scope.
Open Scope Z_scope.

(** ** JSON values, as Python sees them after [json.loads]

    Objects keep their insertion order (Python dicts do); numbers are the
    integers the protocol exchanges (counts, offsets, coordinates). *)

#[warnings="-register-all"]
Inductive json : Type :=
| JNull
| JBool (b : bool)
| JNum (n : Z)
| JStr (s : string)
| JArr (xs : list json)
| JObj (kvs : list (string * json)).

(** ** Exceptions and outcomes *)

Inductive py_error : Type :=
| TypeError | AttributeError | IndexError | KeyError | JSONDecodeError.

Inductive exn : Type :=
| DatabaseUnableToCreate (message : string)
| DatabaseUnableToExtractData (message : string)
| DatabaseUnableToAccess (message : string)
| DatabaseUnableToDelete (message : string)
| DatabaseUnableToAddItem (message : string)
| DatabaseCollectionExists (message : string)
| DatabaseTooManyMetadataDocs (message : string)
| DatabaseMetadataAlreadyExists (message : string)
| PyError (e : py_error).

(** [OutOfFuel] is not a Python outcome: it marks a [while] loop that is
    still running when the step budget of the model is spent. *)
Inductive outcome (A : Type) : Type :=
| Ok (a : A)
| Raise (e : exn)
| OutOfFuel.

Arguments Ok {A} a.
Arguments Raise {A} e.
Arguments OutOfFuel {A}.

Definition obind {A B : Type} (o : outcome A) (k : A -> outcome B) : outcome B :=
  match o with
  | Ok a => k a
  | Raise e => Raise e
  | OutOfFuel => OutOfFuel
  end.

(** ** The Python operations the client applies to parsed JSON *)

Module Py.

(** [str(n)] for an integer. *)
Definition str (n : Z) : string := NilZero.string_of_int (Z.to_int n).

Fixpoint assoc (k : string) (kvs : list (string * json)) : option json :=
  match kvs with
  | [] => None
  | (k', v) :: rest => if String.eqb k k' then Some v else assoc k rest
  end.

(** [d.get(k)]: [None] for a missing key, [AttributeError] when [d] is
    not a dict. *)
Definition get (d : json) (k : string) : outcome json :=
  match d with
  | JObj kvs => match assoc k kvs with Some v => Ok v | None => Ok JNull end
  | _ => Raise (PyError AttributeError)
  end.

(** The integer a value stands for in [offset += count], [count > 1]:
    [bool] is a subclass of [int]; anything else is a [TypeError]. *)
Definition int (j : json) : outcome Z :=
  match j with
  | JNum n => Ok n
  | JBool true => Ok 1
  | JBool false => Ok 0
  | _ => Raise (PyError TypeError)
  end.

(** Truth value, as tested by [if x:] and [while x:]. *)
Definition truthy (j : json) : bool :=
  match j with
  | JNull => false
  | JBool b => b
  | JNum n => negb (n =? 0)
  | JStr s => negb (String.eqb s "")
  | JArr xs => match xs with [] => false | _ => true end
  | JObj kvs => match kvs with [] => false | _ => true end
  end.

Fixpoint chars (s : string) : list json :=
  match s with
  | EmptyString => []
  | String c rest => JStr (String c EmptyString) :: chars rest
  end.

(** The elements [for it in x] runs over. *)
Definition iter (x : json) : outcome (list json) :=
  match x with
  | JArr xs => Ok xs
  | JObj kvs => Ok (map (fun kv => JStr (fst kv)) kvs)
  | JStr s => Ok (chars s)
  | _ => Raise (PyError TypeError)
  end.

Fixpoint for_each (f : json -> outcome json) (xs : list json) : outcome (list json) :=
  match xs with
  | [] => Ok []
  | x :: rest =>
      obind (f x) (fun y => obind (for_each f rest) (fun ys => Ok (y :: ys)))
  end.

(** [[f(it) for it in x]] *)
Definition comprehension (f : json -> outcome json) (x : json) : outcome (list json) :=
  obind (iter x) (for_each f).

(** [x[0]] *)
Definition item0 (x : json) : outcome json :=
  match x with
  | JArr [] => Raise (PyError IndexError)
  | JArr (y :: _) => Ok y
  | JStr EmptyString => Raise (PyError IndexError)
  | JStr (String c _) => Ok (JStr (String c EmptyString))
  | JObj _ => Raise (PyError KeyError)
  | _ => Raise (PyError TypeError)
  end.

(** [s == x] for a string [s]. *)
Definition eq_str (s : string) (x : json) : bool :=
  match x with
  | JStr t => String.eqb s t
  | _ => false
  end.

Fixpoint substring_of (s t : string) : bool :=
  if prefix s t then true
  else match t with
       | EmptyString => false
       | String _ rest => substring_of s rest
       end.

(** [s in x] for a string [s]. *)
Definition contains (s : string) (x : json) : outcome bool :=
  match x with
  | JArr xs => Ok (existsb (eq_str s) xs)
  | JObj kvs => Ok (existsb (fun kv => String.eqb s (fst kv)) kvs)
  | JStr t => Ok (substring_of s t)
  | _ => Raise (PyError TypeError)
  end.

End Py.

(** ** HTTP transport *)

Inductive method : Type := GET | POST | PUT | DELETE.

Record request : Type := mkRequest {
  req_method : method;
  req_url : string;
  req_auth : string * string;
  req_json : option json
}.

(** The text of a response is represented by what [json.loads] makes of
    it: [None] when the body is not a JSON document. *)
Definition text : Type := option json.

Record response : Type := mkResponse {
  status_code : Z;
  reason : string;
  resp_text : text
}.

(** The dicts built by the [__make_*_request] helpers:
    [{"status": "ok", "code": .., "data": ..}] (no ["data"] for DELETE) and
    [{"status": "error", "code": .., "reason": ..}]. *)
Inductive reply : Type :=
| reply_ok (code : Z) (data : option text)
| reply_error (code : Z) (why : string).

Definition json_loads (data : option text) : outcome json :=
  match data with
  | None => Raise (PyError TypeError)
  | Some None => Raise (PyError JSONDecodeError)
  | Some (Some j) => Ok j
  end.

Record JsonDatabase : Type := mkJsonDatabase {
  __user : string;
  __pword : string;
  __collname : string;
  __baseurl : string
}.

Section Client.

(** The remote store: any state type with a request handler. *)
Context {Remote : Type}.
Variable serve : Remote -> request -> response * Remote.

(** [constants.DB_BASE_URL] *)
Variable DB_BASE_URL : string.

Record world : Type := mkWorld {
  remote : Remote;
  sent : list request
}.

Definition M (A : Type) : Type := world -> outcome A * world.

Definition ret {A : Type} (a : A) : M A := fun w => (Ok a, w).

Definition raise {A : Type} (e : exn) : M A := fun w => (Raise e, w).

Definition out_of_fuel {A : Type} : M A := fun w => (OutOfFuel, w).

Definition bind {A B : Type} (m : M A) (k : A -> M B) : M B :=
  fun w =>
    match m w with
    | (Ok a, w') => k a w'
    | (Raise e, w') => (Raise e, w')
    | (OutOfFuel, w') => (OutOfFuel, w')
    end.

Definition lift {A : Type} (o : outcome A) : M A := fun w => (o, w).

Notation "x <- m ;; k" := (bind m (fun x => k))
  (at level 100, m at next level, right associativity).

(** One HTTP exchange: the request is recorded and the store answers.
    Failures of the connection itself (the exceptions of [requests]) are
    outside the model: the store always answers. *)
Definition http (req : request) : M response :=
  fun w =>
    let '(resp, r') := serve (remote w) req in
    (Ok resp, {| remote := r'; sent := sent w ++ [req] |}).

Definition requests_post (url : string) (auth : string * string) (payload : json)
  : M response :=
  http (mkRequest POST url auth (Some payload)).

Definition requests_get (url : string) (auth : string * string) : M response :=
  http (mkRequest GET url auth None).

Definition requests_put (url : string) (auth : string * string) : M response :=
  http (mkRequest PUT url auth None).

Definition requests_delete (url : string) (auth : string * string) : M response :=
  http (mkRequest DELETE url auth None).

Definition __make_post_request (self : JsonDatabase) (target_url : string)
    (payload_dict : json) : M reply :=
  resp <- requests_post target_url (__user self, __pword self) payload_dict ;;
  if (200 <=? status_code resp) && (status_code resp <=? 299)
  then ret (reply_ok (status_code resp) (Some (resp_text resp)))
  else ret (reply_error (status_code resp) (reason resp)).

Definition __make_get_request (self : JsonDatabase) (target_url : string) : M reply :=
  resp <- requests_get target_url (__user self, __pword self) ;;
  if (200 <=? status_code resp) && (status_code resp <=? 299)
  then ret (reply_ok (status_code resp) (Some (resp_text resp)))
  else ret (reply_error (status_code resp) (reason resp)).

Definition __make_delete_request (self : JsonDatabase) (target_url : string) : M reply :=
  resp <- requests_delete target_url (__user self, __pword self) ;;
  if status_code resp =? 200
  then ret (reply_ok (status_code resp) None)
  else ret (reply_error (status_code resp) (reason resp)).

(** [str(resp.get("code")) + " " + resp.get("reason")] *)
Definition error_desc (code : Z) (why : string) : string :=
  Py.str code ++ " " ++ why.

Definition list_collections (self : JsonDatabase) (only_names : bool) : M json :=
  resp <- __make_get_request self (DB_BASE_URL ++ (__user self ++ "/soda/latest")) ;;
  match resp with
  | reply_ok _ data =>
      resp_dict <- lift (json_loads data) ;;
      if only_names then
        items <- lift (Py.get resp_dict "items") ;;
        match items with
        | JNull => ret (JArr [])
        | _ =>
            names <- lift (Py.comprehension (fun it => Py.get it "name") items) ;;
            ret (JArr names)
        end
      else ret resp_dict
  | reply_error code why => raise (DatabaseUnableToAccess (error_desc code why))
  end.

Definition delete_collection (self : JsonDatabase) : M Z :=
  resp <- __make_delete_request self (__baseurl self) ;;
  match resp with
  | reply_error code why => raise (DatabaseUnableToDelete (error_desc code why))
  | reply_ok _ _ => ret 1
  end.

Definition __create_collection (self : JsonDatabase) (overwrite : bool) : M Z :=
  all_colls <- list_collections self true ;;
  present <- lift (Py.contains (__collname self) all_colls) ;;
  _ <- (if present then
          if overwrite then _ <- delete_collection self ;; ret tt
          else raise (DatabaseCollectionExists (__collname self ++ " already exists"))
        else ret tt) ;;
  resp <- requests_put (__baseurl self) (__user self, __pword self) ;;
  if status_code resp >? 299
  then raise (DatabaseUnableToCreate (error_desc (status_code resp) (reason resp)))
  else ret 1.

(** [JsonDatabase.__init__] *)
Definition __init__ (user password collection_name : string)
    (create_coll overwrite : bool) : M JsonDatabase :=
  let url_tail := user ++ "/soda/latest/" ++ collection_name in
  let self := mkJsonDatabase user password collection_name (DB_BASE_URL ++ url_tail) in
  if create_coll then _ <- __create_collection self overwrite ;; ret self
  else ret self.

Definition add_item (self : JsonDatabase) (item_dict : json) : M Z :=
  resp <- __make_post_request self (__baseurl self) item_dict ;;
  match resp with
  | reply_error code why => raise (DatabaseUnableToAddItem (error_desc code why))
  | reply_ok _ _ => ret 1
  end.

Definition extract_metadata (self : JsonDatabase) : M json :=
  let extract_url := __baseurl self ++ "?action=query" in
  let qdata := JObj [("type", JObj [("$eq", JStr "Metadata")])] in
  resp <- __make_post_request self extract_url qdata ;;
  match resp with
  | reply_ok _ data =>
      returned_data <- lift (json_loads data) ;;
      all_items <- lift (Py.get returned_data "items") ;;
      count <- lift (Py.get returned_data "count") ;;
      n <- lift (Py.int count) ;;
      if n >? 1 then
        raise (DatabaseTooManyMetadataDocs
                 ("Found " ++ Py.str n ++ " metadata documents. Only one is allowed."))
      else if n =? 0 then ret (JObj [])
      else
        first <- lift (Py.item0 all_items) ;;
        value <- lift (Py.get first "value") ;;
        extracted <- lift (Py.get value "content") ;;
        ret extracted
  | reply_error code why => raise (DatabaseUnableToExtractData (error_desc code why))
  end.

Definition add_metadata (self : JsonDatabase) (metadata_dict : json) : M Z :=
  let formatted_dict := JObj [("type", JStr "Metadata"); ("content", metadata_dict)] in
  current_meta <- extract_metadata self ;;
  if Py.truthy current_meta then
    raise (DatabaseMetadataAlreadyExists
             "A collection can have only 1 metadata document.")
  else
    resp <- __make_post_request self (__baseurl self) formatted_dict ;;
    match resp with
    | reply_error code why => raise (DatabaseUnableToAddItem (error_desc code why))
    | reply_ok _ _ => ret 1
    end.

Definition add_multiple_items (self : JsonDatabase) (items_list : json) : M Z :=
  let insert_url := __baseurl self ++ "?action=insert" in
  resp <- __make_post_request self insert_url items_list ;;
  match resp with
  | reply_error code why => raise (DatabaseUnableToAddItem (error_desc code why))
  | reply_ok _ _ => ret 1
  end.

(** The three paginated extracts.  Each [while has_more:] loop is a
    recursion on a step budget; [offset], [has_more] and [items] are the
    loop's variables. *)

Fixpoint extract_items_while (self : JsonDatabase) (z_layer : json) (fuel : nat)
    (offset : Z) (has_more : json) (items : list json) : M (list json) :=
  if Py.truthy has_more then
    match fuel with
    | O => out_of_fuel
    | S fuel' =>
        let extract_url := __baseurl self ++ ("?action=query&offset=" ++ Py.str offset) in
        let qdata := JObj [("geometry.coordinates[2]", JObj [("$eq", z_layer)])] in
        resp <- __make_post_request self extract_url qdata ;;
        match resp with
        | reply_ok _ data =>
            returned_data <- lift (json_loads data) ;;
            all_items <- lift (Py.get returned_data "items") ;;
            count <- lift (Py.get returned_data "count") ;;
            has_more <- lift (Py.get returned_data "hasMore") ;;
            n <- lift (Py.int count) ;;
            let offset := offset + n in
            if n >? 0 then
              extracted <- lift (Py.comprehension (fun it => Py.get it "value") all_items) ;;
              extract_items_while self z_layer fuel' offset has_more (items ++ extracted)
            else
              extract_items_while self z_layer fuel' offset has_more items
        | reply_error code why =>
            raise (DatabaseUnableToExtractData (error_desc code why))
        end
    end
  else ret items.

Definition extract_items (self : JsonDatabase) (z_layer : json) (fuel : nat)
  : M (list json) :=
  extract_items_while self z_layer fuel 0 (JBool true) [].

Fixpoint extract_tile_data_while (self : JsonDatabase) (z_layer : json)
    (x0 y0 xf yf : Z) (fuel : nat)
    (offset : Z) (has_more : json) (items : list json) : M (list json) :=
  if Py.truthy has_more then
    match fuel with
    | O => out_of_fuel
    | S fuel' =>
        let extract_url := __baseurl self ++ ("?action=query&offset=" ++ Py.str offset) in
        let qdata :=
          JObj [("geometry.coordinates[2]", JObj [("$eq", z_layer)]);
                ("geometry.coordinates[0]", JObj [("$between", JArr [JNum x0; JNum xf])]);
                ("geometry.coordinates[1]", JObj [("$between", JArr [JNum y0; JNum yf])])] in
        resp <- __make_post_request self extract_url qdata ;;
        match resp with
        | reply_ok _ data =>
            returned_data <- lift (json_loads data) ;;
            all_items <- lift (Py.get returned_data "items") ;;
            count <- lift (Py.get returned_data "count") ;;
            has_more <- lift (Py.get returned_data "hasMore") ;;
            n <- lift (Py.int count) ;;
            let offset := offset + n in
            if n >? 0 then
              extracted <- lift (Py.comprehension (fun it => Py.get it "value") all_items) ;;
              extract_tile_data_while self z_layer x0 y0 xf yf fuel' offset has_more
                (items ++ extracted)
            else
              extract_tile_data_while self z_layer x0 y0 xf yf fuel' offset has_more items
        | reply_error code why =>
            raise (DatabaseUnableToExtractData (error_desc code why))
        end
    end
  else ret items.

Definition extract_tile_data (self : JsonDatabase) (z_layer : json)
    (x0 y0 tile_size : Z) (fuel : nat) : M (list json) :=
  let xf := x0 + tile_size - 1 in
  let yf := y0 + tile_size - 1 in
  extract_tile_data_while self z_layer x0 y0 xf yf fuel 0 (JBool true) [].

Fixpoint extract_region_while (self : JsonDatabase) (z_layer : json)
    (x0 y0 xf yf : Z) (fuel : nat)
    (offset : Z) (has_more : json) (items : list json) : M (list json) :=
  if Py.truthy has_more then
    match fuel with
    | O => out_of_fuel
    | S fuel' =>
        let extract_url := __baseurl self ++ ("?action=query&offset=" ++ Py.str offset) in
        let qdata :=
          JObj [("geometry.coordinates[2]", JObj [("$eq", z_layer)]);
                ("geometry.coordinates[0]", JObj [("$between", JArr [JNum x0; JNum xf])]);
                ("geometry.coordinates[1]", JObj [("$between", JArr [JNum y0; JNum yf])])] in
        resp <- __make_post_request self extract_url qdata ;;
        match resp with
        | reply_ok _ data =>
            returned_data <- lift (json_loads data) ;;
            all_items <- lift (Py.get returned_data "items") ;;
            count <- lift (Py.get returned_data "count") ;;
            has_more <- lift (Py.get returned_data "hasMore") ;;
            n <- lift (Py.int count) ;;
            let offset := offset + n in
            if n >? 0 then
              extracted <- lift (Py.comprehension (fun it => Py.get it "value") all_items) ;;
              extract_region_while self z_layer x0 y0 xf yf fuel' offset has_more
                (items ++ extracted)
            else
              extract_region_while self z_layer x0 y0 xf yf fuel' offset has_more items
        | reply_error code why =>
            raise (DatabaseUnableToExtractData (error_desc code why))
        end
    end
  else ret items.

Definition extract_region (self : JsonDatabase) (z_layer : json)
    (x0 y0 xf yf : Z) (fuel : nat) : M (list json) :=
  extract_region_while self z_layer x0 y0 xf yf fuel 0 (JBool true) [].

End Client.

Arguments world : clear implicits.

(** ** The paginated loop, with the predicate as a parameter

    The three extracts differ only in the predicate they send.  [paginate]
    is that common loop; it is a device of the proofs: each extract above
    is transcribed from its own source text and shown equal to it in
    Part II. *)

Definition query_request (self : JsonDatabase) (qdata : json) (offset : Z) : request :=
  mkRequest POST (__baseurl self ++ ("?action=query&offset=" ++ Py.str offset))
    (__user self, __pword self) (Some qdata).

Definition items_qdata (z_layer : json) : json :=
  JObj [("geometry.coordinates[2]", JObj [("$eq", z_layer)])].

Definition region_qdata (z_layer : json) (x0 y0 xf yf : Z) : json :=
  JObj [("geometry.coordinates[2]", JObj [("$eq", z_layer)]);
        ("geometry.coordinates[0]", JObj [("$between", JArr [JNum x0; JNum xf])]);
        ("geometry.coordinates[1]", JObj [("$between", JArr [JNum y0; JNum yf])])].

Section Loop.

Context {Remote : Type}.
Variable serve : Remote -> request -> response * Remote.

Fixpoint paginate (self : JsonDatabase) (qdata : json) (fuel : nat)
    (offset : Z) (has_more : json) (items : list json) : @M Remote (list json) :=
  if Py.truthy has_more then
    match fuel with
    | O => out_of_fuel
    | S fuel' =>
        bind (__make_post_request serve self
                (__baseurl self ++ ("?action=query&offset=" ++ Py.str offset)) qdata)
          (fun resp =>
             match resp with
             | reply_ok _ data =>
                 bind (lift (json_loads data)) (fun returned_data =>
                 bind (lift (Py.get returned_data "items")) (fun all_items =>
                 bind (lift (Py.get returned_data "count")) (fun count =>
                 bind (lift (Py.get returned_data "hasMore")) (fun has_more' =>
                 bind (lift (Py.int count)) (fun n =>
                 if n >? 0 then
                   bind (lift (Py.comprehension (fun it => Py.get it "value") all_items))
                     (fun extracted =>
                        paginate self qdata fuel' (offset + n) has_more' (items ++ extracted))
                 else paginate self qdata fuel' (offset + n) has_more' items)))))
             | reply_error code why =>
                 raise (DatabaseUnableToExtractData (error_desc code why))
             end)
    end
  else ret items.

End Loop.

Open Scope list_scope.

(** ** Well-formed query responses

    [page_of r docs more]: [r] is a 2xx response whose body is a query
    result in the shape the client consumes, [{items: [..], count: int,
    hasMore: bool}], carrying the document bodies [docs] in its items'
    [value] fields, with [count] the number of items. *)

Definition is_2xx (r : response) : bool :=
  (200 <=? status_code r) && (status_code r <=? 299).

Definition page_of (r : response) (docs : list json) (more : bool) : Prop :=
  is_2xx r = true /\
  exists j its,
    resp_text r = Some j /\
    Py.get j "items" = Ok (JArr its) /\
    Py.for_each (fun it => Py.get it "value") its = Ok docs /\
    Py.get j "count" = Ok (JNum (Z.of_nat (List.length docs))) /\
    Py.get j "hasMore" = Ok (JBool more).

(** A response in the store's layout that is such a page. *)
Definition page_response (docs : list json) (more : bool) : response :=
  mkResponse 200 "OK"
    (Some (JObj [("items", JArr (map (fun d => JObj [("value", d)]) docs));
                 ("hasMore", JBool more);
                 ("count", JNum (Z.of_nat (List.length docs)))])).

(** Offsets of successive pages: each page moves the offset on by the
    number of documents it carries. *)
Fixpoint offsets (start : Z) (pages : list (list json)) : list Z :=
  match pages with
  | [] => []
  | p :: rest => start :: offsets (start + Z.of_nat (List.length p)) rest
  end.

(** The documents carried by pages [ps]. *)
Definition carried (ps : list (list json)) : Z :=
  Z.of_nat (List.length (List.concat ps)).

(** ** A scripted remote: the [n]-th request is answered by [script n],
    whatever it asks. *)

Definition scripted (script : nat -> response) (n : nat) (_ : request) : response * nat :=
  (script n, S n).

(** ** Requests the client sends *)

Definition metadata_query (self : JsonDatabase) : request :=
  mkRequest POST (__baseurl self ++ "?action=query") (__user self, __pword self)
    (Some (JObj [("type", JObj [("$eq", JStr "Metadata")])])).

Definition insert_request (self : JsonDatabase) (doc : json) : request :=
  mkRequest POST (__baseurl self) (__user self, __pword self) (Some doc).

Definition list_request (base usr pw : string) : request :=
  mkRequest GET (base ++ (usr ++ "/soda/latest")) (usr, pw) None.

Definition delete_request (self : JsonDatabase) : request :=
  mkRequest DELETE (__baseurl self) (__user self, __pword self) None.

Definition put_request (self : JsonDatabase) : request :=
  mkRequest PUT (__baseurl self) (__user self, __pword self) None.

(** [listing_of r names]: [r] is a 2xx answer to the listing request whose
    items carry [names] in their [name] fields. *)
Definition listing_of (r : response) (names : list json) : Prop :=
  is_2xx r = true /\
  exists j its,
    resp_text r = Some j /\
    Py.get j "items" = Ok (JArr its) /\
    Py.for_each (fun it => Py.get it "name") its = Ok names.

(** A run halts when some budget lets it finish, by returning or raising. *)
Definition halts {Remote A : Type} (run : nat -> outcome A * world Remote) : Prop :=
  exists fuel, fst (run fuel) <> OutOfFuel.

(** ** A reference remote store

    The service on the other side of the wire is not part of the client.
    For end-to-end statements (what a second call sees after a first one)
    this module gives a small document store speaking the protocol the
    client relies on: collections of documents under
    [<root>/<collection>], listing on [GET <root>], create on [PUT],
    delete on [DELETE], insert on [POST], and [?action=query&offset=n]
    answered with at most [limit] matching documents from position [n]
    on, as [{items: [{value: ..}, ..], hasMore: .., count: ..}]. *)

Module SodaStore.

Definition store : Type := list (string * list json).

Fixpoint strip_prefix (p s : string) : option string :=
  match p with
  | EmptyString => Some s
  | String a p' =>
      match s with
      | String b s' => if Ascii.eqb a b then strip_prefix p' s' else None
      | EmptyString => None
      end
  end.

Fixpoint split_query (s : string) : string * option string :=
  match s with
  | EmptyString => (EmptyString, None)
  | String c rest =>
      if Ascii.eqb c "?" then (EmptyString, Some rest)
      else let '(p, q) := split_query rest in (String c p, q)
  end.

Definition parse_nat (s : string) : option nat :=
  match NilZero.uint_of_string s with
  | Some u => Some (Nat.of_uint u)
  | None => None
  end.

Inductive action : Type :=
| Insert
| InsertMany
| Query (offset : nat).

Definition parse_action (q : option string) : option action :=
  match q with
  | None => Some Insert
  | Some s =>
      if String.eqb s "action=insert" then Some InsertMany
      else if String.eqb s "action=query" then Some (Query 0)
      else match strip_prefix "action=query&offset=" s with
           | Some digits =>
               match parse_nat digits with
               | Some n => Some (Query n)
               | None => None
               end
           | None => None
           end
  end.

(** Field paths of a predicate: [geometry.coordinates[2]]. *)
Inductive step : Type :=
| Key (k : string)
| Index (i : nat).

Definition flush (cur : string) : list step :=
  match cur with
  | EmptyString => []
  | _ => [Key cur]
  end.

Fixpoint parse_path (s cur : string) : list step :=
  match s with
  | EmptyString => flush cur
  | String c rest =>
      if Ascii.eqb c "." then flush cur ++ parse_path rest EmptyString
      else if Ascii.eqb c "[" then flush cur ++ parse_path rest EmptyString
      else if Ascii.eqb c "]" then
        match parse_nat cur with
        | Some i => Index i :: parse_path rest EmptyString
        | None => Key cur :: parse_path rest EmptyString
        end
      else parse_path rest (cur ++ String c EmptyString)%string
  end.

Fixpoint follow (path : list step) (doc : json) : option json :=
  match path with
  | [] => Some doc
  | Key k :: rest =>
      match doc with
      | JObj kvs =>
          match Py.assoc k kvs with
          | Some v => follow rest v
          | None => None
          end
      | _ => None
      end
  | Index i :: rest =>
      match doc with
      | JArr xs =>
          match nth_error xs i with
          | Some v => follow rest v
          | None => None
          end
      | _ => None
      end
  end.

Fixpoint json_eqb (a b : json) : bool :=
  match a, b with
  | JNull, JNull => true
  | JBool x, JBool y => Bool.eqb x y
  | JNum x, JNum y => x =? y
  | JStr x, JStr y => String.eqb x y
  | JArr xs, JArr ys =>
      (fix all2 (xs ys : list json) : bool :=
         match xs, ys with
         | [], [] => true
         | x :: xs', y :: ys' => json_eqb x y && all2 xs' ys'
         | _, _ => false
         end) xs ys
  | JObj xs, JObj ys =>
      (fix all2 (xs ys : list (string * json)) : bool :=
         match xs, ys with
         | [], [] => true
         | (k, x) :: xs', (l, y) :: ys' => String.eqb k l && json_eqb x y && all2 xs' ys'
         | _, _ => false
         end) xs ys
  | _, _ => false
  end.

(** One comparator of a predicate: [{"$eq": v}] or [{"$between": [lo, hi]}]. *)
Definition holds (cond v : json) : bool :=
  match cond with
  | JObj [(op, arg)] =>
      if String.eqb op "$eq" then json_eqb v arg
      else if String.eqb op "$between" then
        match arg, v with
        | JArr [JNum lo; JNum hi], JNum n => (lo <=? n) && (n <=? hi)
        | _, _ => false
        end
      else false
  | _ => false
  end.

Definition matches (pred doc : json) : bool :=
  match pred with
  | JObj conds =>
      forallb (fun c =>
                 match follow (parse_path (fst c) EmptyString) doc with
                 | Some v => holds (snd c) v
                 | None => false
                 end) conds
  | _ => false
  end.

Fixpoint find_coll (name : string) (st : store) : option (list json) :=
  match st with
  | [] => None
  | (n, docs) :: rest => if String.eqb name n then Some docs else find_coll name rest
  end.

Fixpoint update_coll (name : string) (f : list json -> list json) (st : store) : store :=
  match st with
  | [] => []
  | (n, docs) :: rest =>
      if String.eqb name n then (n, f docs) :: rest
      else (n, docs) :: update_coll name f rest
  end.

Definition drop_coll (name : string) (st : store) : store :=
  filter (fun c => negb (String.eqb name (fst c))) st.

Definition listing (st : store) : json :=
  JObj [("items", JArr (map (fun c => JObj [("name", JStr (fst c))]) st));
        ("hasMore", JBool false)].

Definition not_found : response := mkResponse 404 "Not Found" None.
Definition bad_request : response := mkResponse 400 "Bad Request" None.
Definition created : response := mkResponse 201 "Created" (Some (JObj [])).
Definition ok : response := mkResponse 200 "OK" (Some (JObj [])).

Definition answer_query (limit : nat) (docs : list json) (pred : json) (offset : nat)
  : response :=
  let matched := filter (matches pred) docs in
  let page := firstn limit (skipn offset matched) in
  page_response page (offset + limit <? List.length matched)%nat.

Definition serve (root : string) (limit : nat) (st : store) (req : request)
  : response * store :=
  let '(path, q) := split_query (req_url req) in
  match strip_prefix root path with
  | None => (not_found, st)
  | Some EmptyString =>
      match req_method req with
      | GET => (mkResponse 200 "OK" (Some (listing st)), st)
      | _ => (bad_request, st)
      end
  | Some rest =>
      match strip_prefix "/" rest with
      | None => (not_found, st)
      | Some name =>
          match req_method req, find_coll name st with
          | PUT, Some _ => (ok, st)
          | PUT, None => (created, st ++ [(name, [])])
          | DELETE, Some _ => (ok, drop_coll name st)
          | POST, Some docs =>
              match parse_action q, req_json req with
              | Some Insert, Some doc =>
                  (created, update_coll name (fun ds => ds ++ [doc]) st)
              | Some InsertMany, Some (JArr new) =>
                  (ok, update_coll name (fun ds => ds ++ new) st)
              | Some (Query offset), Some pred =>
                  (answer_query limit docs pred offset, st)
              | _, _ => (bad_request, st)
              end
          | GET, Some docs => (bad_request, st)
          | _, None => (not_found, st)
          end
      end
  end.

End SodaStore.

(** ** Sample data for end-to-end runs against the reference store *)

Definition demo_base : string := "https://db.example/ords/".

Definition demo_db : JsonDatabase :=
  mkJsonDatabase "alice" "secret" "nuclei" "https://db.example/ords/alice/soda/latest/nuclei".

(** The store as user [alice] sees it, answering queries [limit] documents
    at a time. *)
Definition demo_serve (limit : nat) : SodaStore.store -> request -> response * SodaStore.store :=
  SodaStore.serve "https://db.example/ords/alice/soda/latest" limit.

Definition feature (x y z : Z) : json :=
  JObj [("type", JStr "Feature");
        ("geometry", JObj [("type", JStr "Point");
                           ("coordinates", JArr [JNum x; JNum y; JNum z])]);
        ("properties", JObj [("area", JNum 500); ("perimeter", JNum 150)])].

Definition metadata_doc (content : json) : json :=
  JObj [("type", JStr "Metadata"); ("content", content)].

Definition informational : response := mkResponse 101 "Switching Protocols" None.

(** Six documents, five of them at layer 0. *)
Definition demo_docs : list json :=
  [feature 10 10 0; feature 20 20 1; feature 30 30 0; feature 40 40 0;
   feature 300 50 0; feature 60 60 0].

(** The answers of a store holding [demo_docs] that serves two documents
    per page, to the layer-0 query at offsets 0, 2, 4, ... *)
Definition two_per_page (n : nat) : response :=
  SodaStore.answer_query 2 demo_docs (items_qdata (JNum 0)) (2 * n).

Definition demo_query (qdata : json) (offset : string) : request :=
  mkRequest POST
    ("https://db.example/ords/alice/soda/latest/nuclei?action=query&offset=" ++ offset)
    ("alice", "secret") (Some qdata).

(** ** A result set served page by page

    [paged limit ms i] is what a store holding the matching documents [ms]
    answers to the [i]-th request of a client that moves its offset on by
    [limit]: the next [limit] documents, flagged "has more" while some are
    left beyond them. *)

Definition paged (limit : nat) (ms : list json) (i : nat) : response :=
  page_response (firstn limit (skipn (i * limit) ms))
    (i * limit + limit <? List.length ms)%nat.

(** ** The metadata example of [examples.py]: [example_add_metadata_twice]

    The example scripts print between the calls; what has been printed
    stays printed when a later call raises.  Standard output is threaded
    beside the world of the client. *)

Section Examples.

Context {Remote : Type}.
Variable serve : Remote -> request -> response * Remote.

(** [constants.DB_BASE_URL], and [USER], [PASSWORD] as read from the
    environment when the module is loaded (both set: the module stops
    without a password). *)
Variable DB_BASE_URL : string.
Variable USER : string.
Variable PASSWORD : string.

Definition program (A : Type) : Type :=
  list string -> world Remote -> (outcome A * world Remote) * list string.

Definition call {A : Type} (m : @M Remote A) : program A :=
  fun out w => (m w, out).

Definition print (line : string) : program unit :=
  fun out w => ((Ok tt, w), out ++ [line]).

Definition then_ {A B : Type} (m : program A) (k : A -> program B) : program B :=
  fun out w =>
    match m out w with
    | ((Ok a, w'), out') => k a out' w'
    | ((Raise e, w'), out') => ((Raise e, w'), out')
    | ((OutOfFuel, w'), out') => ((OutOfFuel, w'), out')
    end.

Definition example_meta : json :=
  JObj [("block_name", JStr "b123");
        ("patch_id", JStr "p123");
        ("registration_version", JStr "20201015");
        ("segmentation_model", JStr "UXYZ123");
        ("deduplication_method", JStr "M2_V1");
        ("roi_size", JArr [JNum 2048; JNum 2048]);
        ("roi_offset", JArr [JNum 1024; JNum 1024])].

Definition example_add_metadata_twice : program unit :=
  let my_collection := "b123__p123__20201017" in
  then_ (call (__init__ serve DB_BASE_URL USER PASSWORD my_collection true false))
    (fun jdb =>
  let meta := example_meta in
  then_ (call (add_metadata serve jdb meta)) (fun _ =>
  then_ (print "Added metadata for the first time") (fun _ =>
  then_ (call (add_metadata serve jdb meta)) (fun _ =>
  print "Added metadata a second time")))).

End Examples.

(** ** Query answers read entry by entry

    [body_of r all_items c h]: [r] is a 2xx answer whose body is a JSON
    object with the integer [c] under [count], and [all_items] and [h]
    under [items] and [hasMore] ([None] standing for an absent entry). *)

Definition body_of (r : response) (all_items : json) (c : Z) (h : json) : Prop :=
  is_2xx r = true /\
  exists j,
    resp_text r = Some j /\
    Py.get j "items" = Ok all_items /\
    Py.get j "count" = Ok (JNum c) /\
    Py.get j "hasMore" = Ok h.

(** * Part II: lemmas and properties *)

(** ** The three loops are the one loop *)

Section LoopEquiv.

Context {Remote : Type}.
Variable serve : Remote -> request -> response * Remote.

Lemma bind_ext {A B : Type} (m : @M Remote A) (k1 k2 : A -> @M Remote B) w :
  (forall a w', k1 a w' = k2 a w') -> bind m k1 w = bind m k2 w.
Proof.
  intros H. unfold bind. destruct (m w) as [[a|e|] w']; auto.
Qed.

Ltac same_page_body IH :=
  simpl; destruct (Py.truthy _); [|reflexivity];
  apply bind_ext; intros [c d|c y] w1; [|reflexivity];
  do 5 (apply bind_ext; intros ? ?);
  destruct (_ >? 0); [apply bind_ext; intros ? ?|]; apply IH.

Lemma extract_items_while_paginate self z_layer fuel :
  forall offset has_more items w,
    extract_items_while serve self z_layer fuel offset has_more items w =
    paginate serve self (items_qdata z_layer) fuel offset has_more items w.
Proof.
  induction fuel as [|fuel IH]; intros offset has_more items w.
  - reflexivity.
  - same_page_body IH.
Qed.

Lemma extract_tile_data_while_paginate self z_layer x0 y0 xf yf fuel :
  forall offset has_more items w,
    extract_tile_data_while serve self z_layer x0 y0 xf yf fuel offset has_more items w =
    paginate serve self (region_qdata z_layer x0 y0 xf yf) fuel offset has_more items w.
Proof.
  induction fuel as [|fuel IH]; intros offset has_more items w.
  - reflexivity.
  - same_page_body IH.
Qed.

Lemma extract_region_while_paginate self z_layer x0 y0 xf yf fuel :
  forall offset has_more items w,
    extract_region_while serve self z_layer x0 y0 xf yf fuel offset has_more items w =
    paginate serve self (region_qdata z_layer x0 y0 xf yf) fuel offset has_more items w.
Proof.
  induction fuel as [|fuel IH]; intros offset has_more items w.
  - reflexivity.
  - same_page_body IH.
Qed.

End LoopEquiv.

(** ** Pages and runs *)

Lemma page_response_page docs more : page_of (page_response docs more) docs more.
Proof.
  split; [reflexivity|].
  eexists; eexists; repeat split; try reflexivity.
  induction docs as [|d docs IH]; simpl; [reflexivity|].
  rewrite IH. reflexivity.
Qed.

Section Runs.

Context {Remote : Type}.
Variable serve : Remote -> request -> response * Remote.

Lemma make_post_request_run self url payload (w : world Remote) r s' :
  serve (remote w) (mkRequest POST url (__user self, __pword self) (Some payload)) = (r, s') ->
  __make_post_request serve self url payload w =
  (Ok (if is_2xx r then reply_ok (status_code r) (Some (resp_text r))
       else reply_error (status_code r) (reason r)),
   {| remote := s'; sent := sent w ++ [mkRequest POST url (__user self, __pword self) (Some payload)] |}).
Proof.
  intros H. unfold __make_post_request, requests_post, http, bind, ret, is_2xx.
  rewrite H. destruct (_ && _); reflexivity.
Qed.

(** One turn of the loop on a well-formed page. *)
Lemma paginate_page self q fuel offset has_more items (w : world Remote) r s' docs more :
  Py.truthy has_more = true ->
  serve (remote w) (query_request self q offset) = (r, s') ->
  page_of r docs more ->
  paginate serve self q (S fuel) offset has_more items w =
  paginate serve self q fuel (offset + Z.of_nat (List.length docs)) (JBool more) (items ++ docs)
    {| remote := s'; sent := sent w ++ [query_request self q offset] |}.
Proof.
  intros Ht Hs (H2 & j & its & Hj & Hi & Hv & Hc & Hm).
  cbn [paginate]. rewrite Ht. unfold bind at 1.
  rewrite (make_post_request_run _ _ _ _ _ _ Hs), H2.
  unfold bind, lift. rewrite Hj. cbn [json_loads]. rewrite Hi, Hc, Hm. cbn [Py.int].
  destruct (Z.of_nat (List.length docs) >? 0) eqn:Hn.
  - unfold Py.comprehension. cbn [Py.iter obind]. rewrite Hv. reflexivity.
  - destruct docs as [|d docs]; [|simpl in Hn; discriminate].
    rewrite app_nil_r. reflexivity.
Qed.

(** One turn of the loop on a response outside [200, 299]. *)
Lemma paginate_error self q fuel offset has_more items (w : world Remote) r s' :
  Py.truthy has_more = true ->
  serve (remote w) (query_request self q offset) = (r, s') ->
  is_2xx r = false ->
  paginate serve self q (S fuel) offset has_more items w =
  (Raise (DatabaseUnableToExtractData (error_desc (status_code r) (reason r))),
   {| remote := s'; sent := sent w ++ [query_request self q offset] |}).
Proof.
  intros Ht Hs H2.
  cbn [paginate]. rewrite Ht. unfold bind at 1.
  rewrite (make_post_request_run _ _ _ _ _ _ Hs), H2. reflexivity.
Qed.

End Runs.

Section Scripted.

Variable script : nat -> response.
Variable self : JsonDatabase.
Variable q : json.

Lemma scripted_page fuel offset items k log docs more :
  page_of (script k) docs more ->
  paginate (scripted script) self q (S fuel) offset (JBool true) items
    {| remote := k; sent := log |} =
  paginate (scripted script) self q fuel (offset + Z.of_nat (List.length docs))
    (JBool more) (items ++ docs)
    {| remote := S k; sent := log ++ [query_request self q offset] |}.
Proof.
  intros Hp.
  exact (paginate_page (scripted script) self q fuel offset (JBool true) items
           {| remote := k; sent := log |} _ _ docs more eq_refl eq_refl Hp).
Qed.

Lemma scripted_error fuel offset items k log :
  is_2xx (script k) = false ->
  paginate (scripted script) self q (S fuel) offset (JBool true) items
    {| remote := k; sent := log |} =
  (Raise (DatabaseUnableToExtractData
            (error_desc (status_code (script k)) (reason (script k)))),
   {| remote := S k; sent := log ++ [query_request self q offset] |}).
Proof.
  intros Hb.
  exact (paginate_error (scripted script) self q fuel offset (JBool true) items
           {| remote := k; sent := log |} _ _ eq_refl eq_refl Hb).
Qed.

(** The loop run through pages [ps] (all flagged "has more") and one
    closing page. *)
Lemma paginate_run ps : forall last k offset items log fuel,
  (forall i p, nth_error ps i = Some p -> page_of (script (k + i)) p true) ->
  page_of (script (k + List.length ps)) last false ->
  (List.length ps < fuel)%nat ->
  paginate (scripted script) self q fuel offset (JBool true) items
    {| remote := k; sent := log |} =
  (Ok (items ++ List.concat (ps ++ [last])),
   {| remote := (k + S (List.length ps))%nat;
      sent := log ++ map (query_request self q) (offsets offset (ps ++ [last])) |}).
Proof.
  induction ps as [|p ps IH]; intros last k offset items log fuel Hps Hlast Hfuel;
    (destruct fuel as [|fuel]; [inversion Hfuel|]).
  - simpl in Hlast. rewrite Nat.add_0_r in Hlast.
    rewrite (scripted_page fuel offset items k log last false Hlast).
    destruct fuel; simpl; rewrite app_nil_r, Nat.add_1_r; reflexivity.
  - assert (Hp : page_of (script k) p true).
    { rewrite <- (Nat.add_0_r k). apply Hps. reflexivity. }
    rewrite (scripted_page fuel offset items k log p true Hp).
    cbn [remote sent].
    rewrite (IH last (S k) _ _ _ fuel).
    + simpl. rewrite <- !app_assoc. simpl.
      replace (S (k + S (List.length ps))) with (k + S (S (List.length ps)))%nat by lia.
      reflexivity.
    + intros i p' Hi. replace (S k + i)%nat with (k + S i)%nat by lia.
      apply Hps. exact Hi.
    + replace (S k + List.length ps)%nat with (k + List.length (p :: ps))%nat by (simpl; lia).
      exact Hlast.
    + simpl in Hfuel. lia.
Qed.

(** After pages [ps], a response outside [200, 299] aborts the loop. *)
Lemma paginate_aborts ps : forall k offset items log fuel,
  (forall i p, nth_error ps i = Some p -> page_of (script (k + i)) p true) ->
  is_2xx (script (k + List.length ps)) = false ->
  (List.length ps < fuel)%nat ->
  paginate (scripted script) self q fuel offset (JBool true) items
    {| remote := k; sent := log |} =
  (Raise (DatabaseUnableToExtractData
            (error_desc (status_code (script (k + List.length ps)))
                        (reason (script (k + List.length ps))))),
   {| remote := (k + S (List.length ps))%nat;
      sent := log ++ map (query_request self q) (offsets offset (ps ++ [[]])) |}).
Proof.
  induction ps as [|p ps IH]; intros k offset items log fuel Hps Hbad Hfuel;
    (destruct fuel as [|fuel]; [inversion Hfuel|]).
  - cbn [List.length] in *. rewrite Nat.add_0_r in *.
    rewrite (scripted_error fuel offset items k log Hbad).
    rewrite Nat.add_1_r. reflexivity.
  - assert (Hp : page_of (script k) p true).
    { rewrite <- (Nat.add_0_r k). apply Hps. reflexivity. }
    rewrite (scripted_page fuel offset items k log p true Hp).
    cbn [remote sent].
    replace (k + List.length (p :: ps))%nat with (S k + List.length ps)%nat in * by (simpl; lia).
    rewrite (IH (S k) _ _ _ fuel).
    + simpl. rewrite <- !app_assoc. simpl.
      replace (S (k + S (List.length ps))) with (k + S (S (List.length ps)))%nat by lia.
      reflexivity.
    + intros i p' Hi. replace (S k + i)%nat with (k + S i)%nat by lia.
      apply Hps. exact Hi.
    + exact Hbad.
    + simpl in Hfuel. lia.
Qed.

End Scripted.

(** ** The loop after a prefix of pages *)

Section Prefix.

Variable script : nat -> response.
Variable self : JsonDatabase.
Variable q : json.

Lemma offsets_app start ps qs :
  offsets start (ps ++ qs) = offsets start ps ++ offsets (start + carried ps) qs.
Proof.
  revert start. induction ps as [|p ps IH]; intros start; simpl.
  - unfold carried. simpl. rewrite Z.add_0_r. reflexivity.
  - rewrite IH. unfold carried. simpl. rewrite length_app, Nat2Z.inj_add, Z.add_assoc.
    reflexivity.
Qed.

(** Pages flagged "has more" are consumed one per unit of budget. *)
Lemma paginate_prefix ps : forall k offset items log fuel,
  (forall i p, nth_error ps i = Some p -> page_of (script (k + i)) p true) ->
  paginate (scripted script) self q (List.length ps + fuel) offset (JBool true) items
    {| remote := k; sent := log |} =
  paginate (scripted script) self q fuel (offset + carried ps) (JBool true)
    (items ++ List.concat ps)
    {| remote := (k + List.length ps)%nat;
       sent := log ++ map (query_request self q) (offsets offset ps) |}.
Proof.
  induction ps as [|p ps IH]; intros k offset items log fuel Hps.
  - unfold carried. simpl. rewrite Z.add_0_r, Nat.add_0_r, !app_nil_r. reflexivity.
  - assert (Hp : page_of (script k) p true).
    { rewrite <- (Nat.add_0_r k). apply Hps. reflexivity. }
    cbn [List.length Nat.add].
    rewrite (scripted_page script self q _ offset items k log p true Hp).
    rewrite IH.
    + unfold carried. simpl. rewrite length_app, Nat2Z.inj_add, Z.add_assoc.
      rewrite <- !app_assoc. simpl.
      replace (S (k + List.length ps))%nat with (k + S (List.length ps))%nat by lia.
      reflexivity.
    + intros i p' Hi. replace (S k + i)%nat with (k + S i)%nat by lia.
      apply Hps. exact Hi.
Qed.

(** Empty pages flagged "has more" leave the offset where it is: the
    same request is sent until the budget is gone. *)
Lemma paginate_zero_count fuel : forall k offset items log,
  (forall i, (k <= i)%nat -> page_of (script i) [] true) ->
  paginate (scripted script) self q fuel offset (JBool true) items
    {| remote := k; sent := log |} =
  (OutOfFuel,
   {| remote := (k + fuel)%nat;
      sent := log ++ repeat (query_request self q offset) fuel |}).
Proof.
  induction fuel as [|fuel IH]; intros k offset items log Hz.
  - simpl. rewrite Nat.add_0_r, app_nil_r. reflexivity.
  - rewrite (scripted_page script self q fuel offset items k log [] true (Hz k (le_n k))).
    simpl. rewrite Z.add_0_r, app_nil_r, IH.
    + rewrite <- app_assoc. simpl.
      replace (S (k + fuel))%nat with (k + S fuel)%nat by lia. reflexivity.
    + intros i Hi. apply Hz. lia.
Qed.

End Prefix.

(** First index at which a flag sequence is false. *)
Lemma first_false (more : nat -> bool) n :
  more n = false ->
  exists m, (m <= n)%nat /\ more m = false /\ forall i, (i < m)%nat -> more i = true.
Proof.
  induction n as [n IH] using lt_wf_ind. intros Hn.
  destruct (forallb more (seq 0 n)) eqn:Hall.
  - exists n. split; [lia|]. split; [exact Hn|].
    intros i Hi. rewrite forallb_forall in Hall. apply Hall.
    apply in_seq. lia.
  - assert (Hex : exists i, (i < n)%nat /\ more i = false).
    { clear IH Hn. induction n as [|n IHn].
      - discriminate.
      - rewrite seq_S, forallb_app in Hall. simpl in Hall.
        destruct (forallb more (seq 0 n)).
        + exists n. split; [lia|]. destruct (more n); [discriminate|reflexivity].
        + destruct (IHn eq_refl) as (i & Hi & Hf). exists i. split; [lia|exact Hf]. }
    destruct Hex as (i & Hi & Hf).
    destruct (IH i Hi Hf) as (m & Hm & Hmf & Hlt).
    exists m. split; [lia|]. split; assumption.
Qed.

Section Frame.

Context {Remote : Type}.
Variable serve : Remote -> request -> response * Remote.

(** Whatever the store answers, the loop only ever sends its one
    predicate, at some offsets. *)
Lemma paginate_sent self q fuel : forall offset has_more items (w : world Remote),
  exists offs,
    sent (snd (paginate serve self q fuel offset has_more items w)) =
    sent w ++ map (query_request self q) offs.
Proof.
  induction fuel as [|fuel IH]; intros offset has_more items w.
  - exists []. simpl. destruct (Py.truthy has_more); simpl; rewrite app_nil_r; reflexivity.
  - cbn [paginate]. destruct (Py.truthy has_more).
    2:{ exists []. simpl. rewrite app_nil_r. reflexivity. }
    unfold bind at 1.
    destruct (serve (remote w) (query_request self q offset)) as [r s'] eqn:Hs.
    rewrite (make_post_request_run serve self _ q w r s' Hs).
    fold (query_request self q offset).
    destruct (is_2xx r).
    2:{ exists [offset]. reflexivity. }
    unfold bind, lift.
    repeat match goal with
           | |- context [match ?x with _ => _ end] =>
               destruct x; try (exists [offset]; reflexivity)
           end;
    match goal with
    | |- context [paginate serve self q fuel ?o ?h ?i ?w1] =>
        destruct (IH o h i w1) as [offs Ho]; exists (offset :: offs);
        rewrite Ho; cbn [sent map]; rewrite <- app_assoc; reflexivity
    end.
Qed.

End Frame.

Lemma nth_error_map_seq {A : Type} (pg : nat -> A) n j p :
  nth_error (map pg (seq 0 n)) j = Some p -> (j < n)%nat /\ p = pg j.
Proof.
  intros H.
  assert (Hlt : (j < n)%nat).
  { assert (H' := proj1 (nth_error_Some (map pg (seq 0 n)) j)).
    rewrite length_map, length_seq in H'. apply H'. rewrite H. discriminate. }
  split; [exact Hlt|].
  apply nth_error_nth with (d := pg 0%nat) in H.
  rewrite map_nth in H. rewrite seq_nth in H by exact Hlt. symmetry. exact H.
Qed.

(** ** Metadata *)

Section Metadata.

Context {Remote : Type}.
Variable serve : Remote -> request -> response * Remote.

Lemma extract_metadata_error self (w : world Remote) r s' :
  serve (remote w) (metadata_query self) = (r, s') ->
  is_2xx r = false ->
  extract_metadata serve self w =
  (Raise (DatabaseUnableToExtractData (error_desc (status_code r) (reason r))),
   {| remote := s'; sent := sent w ++ [metadata_query self] |}).
Proof.
  intros Hs H2. unfold extract_metadata, bind at 1.
  rewrite (make_post_request_run serve self _ _ w r s' Hs), H2. reflexivity.
Qed.

Lemma extract_metadata_page self (w : world Remote) r s' docs more :
  serve (remote w) (metadata_query self) = (r, s') ->
  page_of r docs more ->
  extract_metadata serve self w =
  (match docs with
   | [] => Ok (JObj [])
   | [d] => Py.get d "content"
   | _ => Raise (DatabaseTooManyMetadataDocs
                   ("Found " ++ Py.str (Z.of_nat (List.length docs))
                             ++ " metadata documents. Only one is allowed."))
   end,
   {| remote := s'; sent := sent w ++ [metadata_query self] |}).
Proof.
  intros Hs (H2 & j & its & Hj & Hi & Hv & Hc & Hm).
  unfold extract_metadata, bind at 1.
  rewrite (make_post_request_run serve self _ _ w r s' Hs), H2.
  unfold bind, lift. rewrite Hj. cbn [json_loads]. rewrite Hi, Hc. cbn [Py.int].
  destruct docs as [|d [|d' docs]].
  - reflexivity.
  - cbn [List.length Z.of_nat Z.gtb Z.eqb Z.compare Pos.of_succ_nat Pos.compare
           Pos.compare_cont].
    destruct its as [|it its]; [discriminate|].
    cbn [Py.for_each] in Hv. cbn [Py.item0].
    destruct (Py.get it "value") as [v| |]; try discriminate.
    destruct (Py.for_each _ its); try discriminate.
    cbn [obind] in Hv. injection Hv as -> _.
    destruct (Py.get d "content"); reflexivity.
  - assert (Hgt : (Z.of_nat (List.length (d :: d' :: docs)) >? 1) = true).
    { apply Z.gtb_lt. cbn [List.length]. lia. }
    rewrite Hgt. reflexivity.
Qed.

Lemma add_metadata_inserts self meta (w : world Remote) r s' d more r2 s2 :
  serve (remote w) (metadata_query self) = (r, s') ->
  page_of r (match d with Some doc => [doc] | None => [] end) more ->
  match d with
  | Some doc => exists c, Py.get doc "content" = Ok c /\ Py.truthy c = false
  | None => True
  end ->
  serve s' (insert_request self
              (JObj [("type", JStr "Metadata"); ("content", meta)])) = (r2, s2) ->
  add_metadata serve self meta w =
  (if is_2xx r2 then Ok 1
   else Raise (DatabaseUnableToAddItem (error_desc (status_code r2) (reason r2))),
   {| remote := s2;
      sent := sent w ++ [metadata_query self;
                         insert_request self
                           (JObj [("type", JStr "Metadata"); ("content", meta)])] |}).
Proof.
  intros Hs Hp Hd Hs2. unfold add_metadata, bind at 1.
  rewrite (extract_metadata_page self w r s' _ more Hs Hp).
  assert (Hfalsy : exists c,
             match d with Some doc => Py.get doc "content" | None => Ok (JObj []) end = Ok c
             /\ Py.truthy c = false).
  { destruct d as [doc|]; [exact Hd|]. exists (JObj []). split; reflexivity. }
  destruct Hfalsy as (c & Hc & Hf).
  replace (match match d with Some doc => [doc] | None => [] end with
           | [] => Ok (JObj [])
           | [d0] => Py.get d0 "content"
           | _ => _
           end) with (@Ok json c) by (destruct d; symmetry; exact Hc).
  rewrite Hf. unfold bind.
  rewrite (make_post_request_run serve self (__baseurl self) _
             {| remote := s'; sent := sent w ++ [metadata_query self] |} r2 s2 Hs2).
  cbn [sent]. rewrite <- app_assoc.
  destruct (is_2xx r2); reflexivity.
Qed.

Lemma add_metadata_rejects self meta (w : world Remote) r s' doc c more :
  serve (remote w) (metadata_query self) = (r, s') ->
  page_of r [doc] more ->
  Py.get doc "content" = Ok c ->
  Py.truthy c = true ->
  add_metadata serve self meta w =
  (Raise (DatabaseMetadataAlreadyExists "A collection can have only 1 metadata document."),
   {| remote := s'; sent := sent w ++ [metadata_query self] |}).
Proof.
  intros Hs Hp Hc Ht. unfold add_metadata, bind at 1.
  rewrite (extract_metadata_page self w r s' _ more Hs Hp), Hc, Ht. reflexivity.
Qed.

End Metadata.

(** ** Collection creation *)

Section Create.

Context {Remote : Type}.
Variable serve : Remote -> request -> response * Remote.
Variable base : string.

Lemma list_collections_names self (w : world Remote) r s names :
  serve (remote w) (list_request base (__user self) (__pword self)) = (r, s) ->
  listing_of r names ->
  list_collections serve base self true w =
  (Ok (JArr names),
   {| remote := s; sent := sent w ++ [list_request base (__user self) (__pword self)] |}).
Proof.
  intros Hs (H2 & j & its & Hj & Hi & Hn). unfold is_2xx in H2.
  unfold list_collections, __make_get_request, requests_get, http, bind, lift, ret.
  unfold list_request in Hs. rewrite Hs, H2, Hj. cbn [json_loads]. rewrite Hi.
  unfold Py.comprehension. cbn [Py.iter obind]. rewrite Hn. reflexivity.
Qed.

Lemma list_collections_error self (w : world Remote) r s only_names :
  serve (remote w) (list_request base (__user self) (__pword self)) = (r, s) ->
  is_2xx r = false ->
  list_collections serve base self only_names w =
  (Raise (DatabaseUnableToAccess (error_desc (status_code r) (reason r))),
   {| remote := s; sent := sent w ++ [list_request base (__user self) (__pword self)] |}).
Proof.
  intros Hs H2. unfold is_2xx in H2.
  unfold list_collections, __make_get_request, requests_get, http, bind, lift, ret.
  unfold list_request in Hs. rewrite Hs, H2. reflexivity.
Qed.

Lemma delete_collection_run self (w : world Remote) r s :
  serve (remote w) (delete_request self) = (r, s) ->
  delete_collection serve self w =
  (if status_code r =? 200 then Ok 1
   else Raise (DatabaseUnableToDelete (error_desc (status_code r) (reason r))),
   {| remote := s; sent := sent w ++ [delete_request self] |}).
Proof.
  intros Hs.
  unfold delete_collection, __make_delete_request, requests_delete, http, bind, ret.
  unfold delete_request in Hs. rewrite Hs.
  destruct (status_code r =? 200); reflexivity.
Qed.

(** The three paths of [__create_collection], after a listing that
    carries [names]. *)
Lemma create_collection_exists self (w : world Remote) r1 s1 names :
  serve (remote w) (list_request base (__user self) (__pword self)) = (r1, s1) ->
  listing_of r1 names ->
  existsb (Py.eq_str (__collname self)) names = true ->
  __create_collection serve base self false w =
  (Raise (DatabaseCollectionExists (__collname self ++ " already exists")),
   {| remote := s1; sent := sent w ++ [list_request base (__user self) (__pword self)] |}).
Proof.
  intros Hs Hl He. unfold __create_collection, bind at 1.
  rewrite (list_collections_names self w r1 s1 names Hs Hl).
  unfold bind, lift. cbn [Py.contains]. rewrite He. reflexivity.
Qed.

Lemma create_collection_overwrite self (w : world Remote) r1 s1 names r2 s2 r3 s3 :
  serve (remote w) (list_request base (__user self) (__pword self)) = (r1, s1) ->
  listing_of r1 names ->
  existsb (Py.eq_str (__collname self)) names = true ->
  serve s1 (delete_request self) = (r2, s2) ->
  status_code r2 = 200 ->
  serve s2 (put_request self) = (r3, s3) ->
  __create_collection serve base self true w =
  (if status_code r3 >? 299
   then Raise (DatabaseUnableToCreate (error_desc (status_code r3) (reason r3)))
   else Ok 1,
   {| remote := s3;
      sent := sent w ++ [list_request base (__user self) (__pword self);
                         delete_request self; put_request self] |}).
Proof.
  intros Hs Hl He Hd H200 Hp. unfold __create_collection, bind at 1.
  rewrite (list_collections_names self w r1 s1 names Hs Hl).
  unfold bind at 1, lift. cbn [Py.contains]. rewrite He.
  unfold bind at 1. unfold bind at 1.
  rewrite (delete_collection_run self
             {| remote := s1;
                sent := sent w ++ [list_request base (__user self) (__pword self)] |}
             r2 s2 Hd), H200. cbn [Z.eqb Pos.eqb].
  unfold ret, bind, requests_put, http. cbn [remote sent].
  unfold put_request in Hp. rewrite Hp. rewrite <- !app_assoc.
  destruct (status_code r3 >? 299); reflexivity.
Qed.

Lemma create_collection_fresh self overwrite (w : world Remote) r1 s1 names r3 s3 :
  serve (remote w) (list_request base (__user self) (__pword self)) = (r1, s1) ->
  listing_of r1 names ->
  existsb (Py.eq_str (__collname self)) names = false ->
  serve s1 (put_request self) = (r3, s3) ->
  __create_collection serve base self overwrite w =
  (if status_code r3 >? 299
   then Raise (DatabaseUnableToCreate (error_desc (status_code r3) (reason r3)))
   else Ok 1,
   {| remote := s3;
      sent := sent w ++ [list_request base (__user self) (__pword self); put_request self] |}).
Proof.
  intros Hs Hl He Hp. unfold __create_collection, bind at 1.
  rewrite (list_collections_names self w r1 s1 names Hs Hl).
  unfold bind at 1, lift. cbn [Py.contains]. rewrite He.
  unfold ret, bind, requests_put, http. cbn [remote sent].
  unfold put_request in Hp. rewrite Hp. rewrite <- !app_assoc.
  destruct (status_code r3 >? 299); reflexivity.
Qed.

End Create.

(** ** Status classification, operation by operation *)

Section Classification.

Context {Remote : Type}.
Variable serve : Remote -> request -> response * Remote.

Lemma add_item_run self doc (w : world Remote) r s :
  serve (remote w) (insert_request self doc) = (r, s) ->
  add_item serve self doc w =
  (if is_2xx r then Ok 1
   else Raise (DatabaseUnableToAddItem (error_desc (status_code r) (reason r))),
   {| remote := s; sent := sent w ++ [insert_request self doc] |}).
Proof.
  intros Hs. unfold add_item, bind.
  rewrite (make_post_request_run serve self _ _ w r s Hs).
  destruct (is_2xx r); reflexivity.
Qed.

Lemma add_multiple_items_run self docs (w : world Remote) r s :
  serve (remote w)
    (mkRequest POST (__baseurl self ++ "?action=insert") (__user self, __pword self) (Some docs))
    = (r, s) ->
  add_multiple_items serve self docs w =
  (if is_2xx r then Ok 1
   else Raise (DatabaseUnableToAddItem (error_desc (status_code r) (reason r))),
   {| remote := s;
      sent := sent w ++ [mkRequest POST (__baseurl self ++ "?action=insert")
                           (__user self, __pword self) (Some docs)] |}).
Proof.
  intros Hs. unfold add_multiple_items, bind.
  rewrite (make_post_request_run serve self _ _ w r s Hs).
  destruct (is_2xx r); reflexivity.
Qed.

End Classification.

(** ** End-to-end runs against the reference store *)

(** Metadata added to an empty collection, read back, then added again. *)
Lemma add_metadata_twice_nonempty (meta : json) :
  Py.truthy meta = true ->
  let w0 := {| remote := [("nuclei", [])]; sent := [] |} in
  let '(o1, w1) := add_metadata (demo_serve 100) demo_db meta w0 in
  let '(o2, w2) := extract_metadata (demo_serve 100) demo_db w1 in
  let '(o3, w3) := add_metadata (demo_serve 100) demo_db meta w2 in
  o1 = Ok 1 /\ o2 = Ok meta /\
  o3 = Raise (DatabaseMetadataAlreadyExists "A collection can have only 1 metadata document.")
  /\ remote w3 = [("nuclei", [metadata_doc meta])].
Proof.
  intros Ht. vm_compute in Ht. vm_compute. rewrite Ht. repeat split.
Qed.

(** The same run against the store itself. *)
Example extract_items_from_store :
  extract_items (demo_serve 2) demo_db (JNum 0) 3
    {| remote := [("nuclei", demo_docs)]; sent := [] |} =
  (Ok [feature 10 10 0; feature 30 30 0; feature 40 40 0; feature 300 50 0; feature 60 60 0],
   {| remote := [("nuclei", demo_docs)];
      sent := [demo_query (items_qdata (JNum 0)) "0";
               demo_query (items_qdata (JNum 0)) "2";
               demo_query (items_qdata (JNum 0)) "4"] |}).
Proof. vm_compute. reflexivity. Qed.

(** A tile of size 256 at the origin of layer 0 leaves out the document
    at [x = 300] and the one at layer 1. *)
Example extract_tile_data_from_store :
  fst (extract_tile_data (demo_serve 2) demo_db (JNum 0) 0 0 256 3
         {| remote := [("nuclei", demo_docs)]; sent := [] |}) =
  Ok [feature 10 10 0; feature 30 30 0; feature 40 40 0; feature 60 60 0].
Proof. vm_compute. reflexivity. Qed.

(** ** The properties of the client *)

(** C1 (the code departs from the claim).  On an empty collection,
    [add_metadata({})] succeeds twice: the existence check tests the truth
    value of the extracted content, and the empty mapping is falsy.  The
    collection then holds two metadata documents and [extract_metadata]
    raises the too-many-metadata-documents error. *)
Theorem add_metadata_twice_empty_mapping :
  let w0 := {| remote := [("nuclei", [])]; sent := [] |} in
  let '(o1, w1) := add_metadata (demo_serve 100) demo_db (JObj []) w0 in
  let '(o2, w2) := add_metadata (demo_serve 100) demo_db (JObj []) w1 in
  o1 = Ok 1 /\ o2 = Ok 1 /\
  remote w2 = [("nuclei", [metadata_doc (JObj []); metadata_doc (JObj [])])] /\
  fst (extract_metadata (demo_serve 100) demo_db w2) =
  Raise (DatabaseTooManyMetadataDocs "Found 2 metadata documents. Only one is allowed.").
Proof. vm_compute. repeat split. Qed.

(** C2.  Against any sequence of well-formed 2xx query responses of which
    the first [length ps] are flagged "has more" (carrying the documents
    [ps]) and the next one is not (carrying [last]), [extract_items] sends
    exactly [length ps + 1] requests, all with the predicate
    [{coordinates[2] $eq z_layer}], at offsets that start at 0 and advance
    by the number of documents of each page, and returns the documents of
    all these pages in arrival order. *)
Theorem extract_items_pagination
    (script : nat -> response) (self : JsonDatabase) (z_layer : json)
    (ps : list (list json)) (last : list json) (fuel : nat) :
  (forall i p, nth_error ps i = Some p -> page_of (script i) p true) ->
  page_of (script (List.length ps)) last false ->
  (List.length ps < fuel)%nat ->
  extract_items (scripted script) self z_layer fuel {| remote := 0%nat; sent := [] |} =
  (Ok (List.concat (ps ++ [last])),
   {| remote := S (List.length ps);
      sent := map (query_request self
                     (JObj [("geometry.coordinates[2]", JObj [("$eq", z_layer)])]))
                  (offsets 0 (ps ++ [last])) |}).
Proof.
  intros Hps Hlast Hfuel. unfold extract_items.
  rewrite extract_items_while_paginate.
  rewrite (paginate_run script self (items_qdata z_layer) ps last 0 0 [] [] fuel);
    try assumption.
  reflexivity.
Qed.

Lemma extract_items_pagination_witness :
  extract_items (scripted two_per_page) demo_db (JNum 0) 3
    {| remote := 0%nat; sent := [] |} =
  (Ok [feature 10 10 0; feature 30 30 0; feature 40 40 0; feature 300 50 0; feature 60 60 0],
   {| remote := 3%nat;
      sent := [demo_query (items_qdata (JNum 0)) "0";
               demo_query (items_qdata (JNum 0)) "2";
               demo_query (items_qdata (JNum 0)) "4"] |}).
Proof.
  apply (extract_items_pagination two_per_page demo_db (JNum 0)
           [[feature 10 10 0; feature 30 30 0]; [feature 40 40 0; feature 300 50 0]]
           [feature 60 60 0] 3).
  - intros [|[|[|i]]] p H; simpl in H; try discriminate;
      injection H as <-; apply page_response_page.
  - apply page_response_page.
  - simpl. lia.
Defined.

(** C3.  Let every response be a well-formed 2xx query page, the [i]-th
    one carrying documents [pg i] and the flag [more i].  Then each of the
    three paginated extracts halts if and only if some response has its
    flag false.  Moreover, if from position [n] on every response is an
    empty page flagged "has more" (and the earlier ones are flagged too),
    then with any budget [n + extra] the loop is still running when the
    budget is spent, and its last [extra] requests are one and the same
    request, at the offset reached after [n] pages: a zero-count page is not
    taken as the end of the results. *)
Theorem pagination_halts_iff_has_more_false
    (script : nat -> response) (self : JsonDatabase) (z_layer : json)
    (x0 y0 xf yf tile_size : Z) (pg : nat -> list json) (more : nat -> bool) :
  (forall i, page_of (script i) (pg i) (more i)) ->
  let w0 := {| remote := 0%nat; sent := [] |} in
  (halts (fun fuel => extract_items (scripted script) self z_layer fuel w0)
   <-> exists i, more i = false)
  /\
  (halts (fun fuel => extract_tile_data (scripted script) self z_layer x0 y0 tile_size fuel w0)
   <-> exists i, more i = false)
  /\
  (halts (fun fuel => extract_region (scripted script) self z_layer x0 y0 xf yf fuel w0)
   <-> exists i, more i = false)
  /\
  forall n extra,
    (forall i, (i < n)%nat -> more i = true) ->
    (forall i, (n <= i)%nat -> pg i = [] /\ more i = true) ->
    let ps := map pg (seq 0 n) in
    let stuck q :=
      (OutOfFuel,
       {| remote := (n + extra)%nat;
          sent := map (query_request self q) (offsets 0 ps) ++
                  repeat (query_request self q (carried ps)) extra |}) in
    extract_items (scripted script) self z_layer (n + extra) w0 =
      stuck (items_qdata z_layer)
    /\ extract_tile_data (scripted script) self z_layer x0 y0 tile_size (n + extra) w0 =
      stuck (region_qdata z_layer x0 y0 (x0 + tile_size - 1) (y0 + tile_size - 1))
    /\ extract_region (scripted script) self z_layer x0 y0 xf yf (n + extra) w0 =
      stuck (region_qdata z_layer x0 y0 xf yf).
Proof.
  intros Hpg w0.
  assert (Hiff : forall q,
             halts (fun fuel => paginate (scripted script) self q fuel 0 (JBool true) [] w0)
             <-> exists i, more i = false).
  { intros q. split.
    - intros [fuel Hfuel].
      destruct (forallb more (seq 0 fuel)) eqn:Hall.
      + exfalso. apply Hfuel.
        rewrite forallb_forall in Hall.
        replace fuel with (List.length (map pg (seq 0 fuel)) + 0)%nat at 1
          by (rewrite length_map, length_seq; lia).
        unfold w0. rewrite paginate_prefix.
        * reflexivity.
        * intros i p Hi. simpl.
          destruct (nth_error_map_seq pg _ _ _ Hi) as [Hlt ->].
          rewrite <- (Hall i); [apply Hpg|]. apply in_seq. lia.
      + destruct (forallb more (seq 0 fuel)) eqn:Hall'; [discriminate|].
        clear Hall. revert Hall'. clear. induction fuel as [|fuel IH]; [discriminate|].
        rewrite seq_S, forallb_app. simpl. intros H.
        destruct (forallb more (seq 0 fuel)); [|apply IH; reflexivity].
        exists fuel. destruct (more fuel); [discriminate|reflexivity].
    - intros [i Hi].
      destruct (first_false more i Hi) as (m & _ & Hm & Hbefore).
      exists (S m). unfold w0.
      rewrite (paginate_run script self q (map pg (seq 0 m)) (pg m) 0 0 [] []).
      + discriminate.
      + intros j p Hj. simpl.
          destruct (nth_error_map_seq pg _ _ _ Hj) as [Hlt ->].
        rewrite <- (Hbefore j Hlt). apply Hpg.
      + rewrite length_map, length_seq. simpl. rewrite <- Hm. apply Hpg.
      + rewrite length_map, length_seq. lia. }
  assert (Hstuck : forall q n extra,
             (forall i, (i < n)%nat -> more i = true) ->
             (forall i, (n <= i)%nat -> pg i = [] /\ more i = true) ->
             paginate (scripted script) self q (n + extra) 0 (JBool true) [] w0 =
             (OutOfFuel,
              {| remote := (n + extra)%nat;
                 sent := map (query_request self q) (offsets 0 (map pg (seq 0 n))) ++
                         repeat (query_request self q (carried (map pg (seq 0 n)))) extra |})).
  { intros q n extra Hbefore Hafter. unfold w0.
    replace (n + extra)%nat with (List.length (map pg (seq 0 n)) + extra)%nat at 1
      by (rewrite length_map, length_seq; reflexivity).
    rewrite paginate_prefix.
    - rewrite paginate_zero_count.
      + rewrite length_map, length_seq. reflexivity.
      + intros i Hi. rewrite length_map, length_seq in Hi. simpl in Hi.
        destruct (Hafter i Hi) as [He Hm]. rewrite <- He, <- Hm. apply Hpg.
    - intros j p Hj. simpl.
          destruct (nth_error_map_seq pg _ _ _ Hj) as [Hlt ->].
      rewrite <- (Hbefore j Hlt). apply Hpg. }
  repeat split.
  - intros [fuel H]. apply (Hiff (items_qdata z_layer)). exists fuel.
    unfold extract_items in H. rewrite extract_items_while_paginate in H. exact H.
  - intros H. apply (Hiff (items_qdata z_layer)) in H. destruct H as [fuel H].
    exists fuel. unfold extract_items. rewrite extract_items_while_paginate. exact H.
  - intros [fuel H]. apply (Hiff (region_qdata z_layer x0 y0 (x0 + tile_size - 1) (y0 + tile_size - 1))).
    exists fuel.
    unfold extract_tile_data in H. rewrite extract_tile_data_while_paginate in H. exact H.
  - intros H.
    apply (Hiff (region_qdata z_layer x0 y0 (x0 + tile_size - 1) (y0 + tile_size - 1))) in H.
    destruct H as [fuel H].
    exists fuel. unfold extract_tile_data. rewrite extract_tile_data_while_paginate. exact H.
  - intros [fuel H]. apply (Hiff (region_qdata z_layer x0 y0 xf yf)). exists fuel.
    unfold extract_region in H. rewrite extract_region_while_paginate in H. exact H.
  - intros H. apply (Hiff (region_qdata z_layer x0 y0 xf yf)) in H. destruct H as [fuel H].
    exists fuel. unfold extract_region. rewrite extract_region_while_paginate. exact H.
  - unfold extract_items. rewrite extract_items_while_paginate. apply Hstuck; assumption.
  - unfold extract_tile_data. rewrite extract_tile_data_while_paginate.
    apply Hstuck; assumption.
  - unfold extract_region. rewrite extract_region_while_paginate. apply Hstuck; assumption.
Qed.

Lemma pagination_halts_iff_has_more_false_witness :
  let spin := fun _ : nat => page_response [] true in
  let w0 := {| remote := 0%nat; sent := [] |} in
  extract_items (scripted spin) demo_db (JNum 0) 3 w0 =
    (OutOfFuel,
     {| remote := 3%nat;
        sent := [demo_query (items_qdata (JNum 0)) "0";
                 demo_query (items_qdata (JNum 0)) "0";
                 demo_query (items_qdata (JNum 0)) "0"] |})
  /\ ~ halts (fun fuel => extract_items (scripted spin) demo_db (JNum 0) fuel w0).
Proof.
  intros spin w0.
  destruct (pagination_halts_iff_has_more_false spin demo_db (JNum 0) 0 0 255 255 256
              (fun _ => []) (fun _ => true) (fun i => page_response_page [] true))
    as (Hiff & _ & _ & Hzero).
  split.
  - apply (Hzero 0%nat 3%nat).
    + intros i Hi. inversion Hi.
    + intros i _. split; reflexivity.
  - intros H. apply Hiff in H. destruct H as [i Hi]. discriminate Hi.
Defined.

(** C4 (the code departs from the claim).  A create request answered
    with status 101, which is outside [200, 299], does not raise:
    [__create_collection] only tests [status_code > 299].  The same
    response makes [add_item], whose POST goes through the [200..299]
    classification, raise its error with status and reason. *)
Theorem create_collection_accepts_status_101 :
  let script := fun n => match n with
                         | O => mkResponse 200 "OK" (Some (SodaStore.listing []))
                         | _ => informational
                         end in
  let w0 := {| remote := 0%nat; sent := [] |} in
  is_2xx informational = false /\
  __init__ (scripted script) demo_base "alice" "secret" "nuclei" true false w0 =
    (Ok demo_db,
     {| remote := 2%nat;
        sent := [list_request demo_base "alice" "secret"; put_request demo_db] |}) /\
  fst (add_item (scripted (fun _ => informational)) demo_db (feature 1 2 0) w0) =
    Raise (DatabaseUnableToAddItem "101 Switching Protocols").
Proof. vm_compute. repeat split. Qed.

(** C5.  [extract_metadata] sends one query, for the documents whose
    [type] equals ["Metadata"].  On a response outside [200, 299] it raises
    the extract-data error; on a page with no document it returns the empty
    mapping; on a page with exactly one document it returns that document's
    [content]; on a page with more than one it raises the
    too-many-metadata-documents error, whose message carries the count. *)
Theorem extract_metadata_cases
    {Remote : Type} (serve : Remote -> request -> response * Remote)
    (self : JsonDatabase) (w : world Remote) (r : response) (s' : Remote) :
  serve (remote w)
    (mkRequest POST (__baseurl self ++ "?action=query") (__user self, __pword self)
       (Some (JObj [("type", JObj [("$eq", JStr "Metadata")])]))) = (r, s') ->
  let w' := {| remote := s'; sent := sent w ++ [metadata_query self] |} in
  (is_2xx r = false ->
   extract_metadata serve self w =
   (Raise (DatabaseUnableToExtractData (Py.str (status_code r) ++ " " ++ reason r)), w'))
  /\
  (forall more, page_of r [] more ->
   extract_metadata serve self w = (Ok (JObj []), w'))
  /\
  (forall d c more, page_of r [d] more -> Py.get d "content" = Ok c ->
   extract_metadata serve self w = (Ok c, w'))
  /\
  (forall docs more, page_of r docs more -> (1 < List.length docs)%nat ->
   extract_metadata serve self w =
   (Raise (DatabaseTooManyMetadataDocs
             ("Found " ++ Py.str (Z.of_nat (List.length docs))
                       ++ " metadata documents. Only one is allowed.")), w')).
Proof.
  intros Hs w'. repeat split.
  - intros H2. apply (extract_metadata_error serve self w r s' Hs H2).
  - intros more Hp. apply (extract_metadata_page serve self w r s' [] more Hs Hp).
  - intros d c more Hp Hc.
    rewrite (extract_metadata_page serve self w r s' [d] more Hs Hp), Hc. reflexivity.
  - intros docs more Hp Hlen.
    rewrite (extract_metadata_page serve self w r s' docs more Hs Hp).
    destruct docs as [|d [|d' docs]]; simpl in Hlen; try lia. reflexivity.
Qed.

Lemma extract_metadata_cases_witness :
  let meta := JObj [("block_name", JStr "b123"); ("roi_size", JArr [JNum 2048; JNum 2048])] in
  let st := [("nuclei", [feature 10 10 0; metadata_doc meta])] in
  extract_metadata (demo_serve 100) demo_db {| remote := st; sent := [] |} =
  (Ok meta, {| remote := st; sent := [metadata_query demo_db] |}).
Proof.
  intros meta st.
  apply (proj1 (proj2 (proj2
           (extract_metadata_cases (demo_serve 100) demo_db {| remote := st; sent := [] |}
              (page_response [metadata_doc meta] false) st eq_refl)))
           (metadata_doc meta) meta false).
  - apply page_response_page.
  - reflexivity.
Defined.

(** C6.  If, after pages [ps] (all well formed and flagged "has more"),
    the next response has a status outside [200, 299], each of the three
    paginated extracts raises the extract-data error built from that
    status and reason; the outcome carries no document: the items gathered
    from [ps] are not returned. *)
Theorem paginated_extract_aborts_on_error
    (script : nat -> response) (self : JsonDatabase) (z_layer : json)
    (x0 y0 xf yf tile_size : Z) (ps : list (list json)) (fuel : nat) :
  (forall i p, nth_error ps i = Some p -> page_of (script i) p true) ->
  is_2xx (script (List.length ps)) = false ->
  (List.length ps < fuel)%nat ->
  let w0 := {| remote := 0%nat; sent := [] |} in
  let bad := script (List.length ps) in
  let err : outcome (list json) :=
    Raise (DatabaseUnableToExtractData (Py.str (status_code bad) ++ " " ++ reason bad)) in
  fst (extract_items (scripted script) self z_layer fuel w0) = err
  /\ fst (extract_tile_data (scripted script) self z_layer x0 y0 tile_size fuel w0) = err
  /\ fst (extract_region (scripted script) self z_layer x0 y0 xf yf fuel w0) = err.
Proof.
  intros Hps Hbad Hfuel w0 bad err.
  unfold extract_items, extract_tile_data, extract_region.
  rewrite extract_items_while_paginate, extract_tile_data_while_paginate,
    extract_region_while_paginate.
  unfold w0.
  rewrite !(paginate_aborts script self _ ps 0 0 [] [] fuel Hps Hbad Hfuel).
  repeat split.
Qed.

Lemma paginated_extract_aborts_on_error_witness :
  let script := fun n => match n with
                         | O => page_response [feature 10 10 0; feature 30 30 0] true
                         | _ => mkResponse 503 "Service Unavailable" None
                         end in
  let w0 := {| remote := 0%nat; sent := [] |} in
  let err : outcome (list json) :=
    Raise (DatabaseUnableToExtractData "503 Service Unavailable") in
  fst (extract_items (scripted script) demo_db (JNum 0) 5 w0) = err
  /\ fst (extract_tile_data (scripted script) demo_db (JNum 0) 0 0 256 5 w0) = err
  /\ fst (extract_region (scripted script) demo_db (JNum 0) 0 0 255 255 5 w0) = err.
Proof.
  intros script w0 err.
  apply (paginated_extract_aborts_on_error script demo_db (JNum 0) 0 0 255 255 256
           [[feature 10 10 0; feature 30 30 0]] 5).
  - intros [|[|i]] p H; simpl in H; try discriminate.
    injection H as <-. apply page_response_page.
  - reflexivity.
  - simpl. lia.
Defined.

(** C7.  [extract_tile_data z x0 y0 tile_size] behaves, against every
    remote store and from every state, exactly as
    [extract_region z x0 y0 (x0+tile_size-1) (y0+tile_size-1)]: same result,
    same store state, same requests; and every request it adds carries the
    predicate [{coordinates[2] $eq z, coordinates[0] $between [x0, x0+tile_size-1],
    coordinates[1] $between [y0, y0+tile_size-1]}]. *)
Theorem extract_tile_data_is_extract_region
    {Remote : Type} (serve : Remote -> request -> response * Remote)
    (self : JsonDatabase) (z_layer : json) (x0 y0 tile_size : Z) (fuel : nat)
    (w : world Remote) :
  extract_tile_data serve self z_layer x0 y0 tile_size fuel w =
  extract_region serve self z_layer x0 y0 (x0 + tile_size - 1) (y0 + tile_size - 1) fuel w
  /\
  exists offs,
    sent (snd (extract_tile_data serve self z_layer x0 y0 tile_size fuel w)) =
    sent w ++
    map (query_request self
           (JObj [("geometry.coordinates[2]", JObj [("$eq", z_layer)]);
                  ("geometry.coordinates[0]",
                   JObj [("$between", JArr [JNum x0; JNum (x0 + tile_size - 1)])]);
                  ("geometry.coordinates[1]",
                   JObj [("$between", JArr [JNum y0; JNum (y0 + tile_size - 1)])])]))
        offs.
Proof.
  unfold extract_tile_data, extract_region.
  rewrite extract_tile_data_while_paginate, extract_region_while_paginate.
  split; [reflexivity|].
  apply paginate_sent.
Qed.

(** C8.  Construction with the create flag set first lists the
    collections.  If the collection name is listed and overwrite is unset,
    it raises collection-exists, having sent nothing but the listing
    request: no create request reaches the store.  If the name is listed
    and overwrite is set, it sends the delete and then the create request.
    If the name is not listed, it sends the create request. *)
Theorem init_create_cases
    {Remote : Type} (serve : Remote -> request -> response * Remote)
    (base usr pw coll : string) (w : world Remote)
    (r1 : response) (s1 : Remote) (names : list json) :
  let self := mkJsonDatabase usr pw coll (base ++ (usr ++ "/soda/latest/" ++ coll)) in
  let listing := mkRequest GET (base ++ (usr ++ "/soda/latest")) (usr, pw) None in
  let delete := mkRequest DELETE (__baseurl self) (usr, pw) None in
  let create := mkRequest PUT (__baseurl self) (usr, pw) None in
  serve (remote w) listing = (r1, s1) ->
  listing_of r1 names ->
  (existsb (Py.eq_str coll) names = true ->
   __init__ serve base usr pw coll true false w =
   (Raise (DatabaseCollectionExists (coll ++ " already exists")),
    {| remote := s1; sent := sent w ++ [listing] |})
   /\
   forall r2 s2 r3 s3,
     serve s1 delete = (r2, s2) -> status_code r2 = 200 ->
     serve s2 create = (r3, s3) -> status_code r3 <= 299 ->
     __init__ serve base usr pw coll true true w =
     (Ok self, {| remote := s3; sent := sent w ++ [listing; delete; create] |}))
  /\
  (existsb (Py.eq_str coll) names = false ->
   forall overwrite r3 s3,
     serve s1 create = (r3, s3) -> status_code r3 <= 299 ->
     __init__ serve base usr pw coll true overwrite w =
     (Ok self, {| remote := s3; sent := sent w ++ [listing; create] |})).
Proof.
  intros self listing delete create Hs Hl. split.
  - intros He. split.
    + unfold __init__, bind. fold self.
      rewrite (create_collection_exists serve base self w r1 s1 names Hs Hl He).
      reflexivity.
    + intros r2 s2 r3 s3 Hd H200 Hp Hok. unfold __init__, bind. fold self.
      rewrite (create_collection_overwrite serve base self w r1 s1 names r2 s2 r3 s3
                 Hs Hl He Hd H200 Hp).
      destruct (Z.gtb_spec (status_code r3) 299); [lia|reflexivity].
  - intros He overwrite r3 s3 Hp Hok. unfold __init__, bind. fold self.
    rewrite (create_collection_fresh serve base self overwrite w r1 s1 names r3 s3
               Hs Hl He Hp).
    destruct (Z.gtb_spec (status_code r3) 299); [lia|reflexivity].
Qed.

Lemma init_create_cases_witness :
  let st := [("nuclei", [feature 10 10 0])] in
  let w0 := {| remote := st; sent := [] |} in
  let listing := list_request demo_base "alice" "secret" in
  __init__ (demo_serve 100) demo_base "alice" "secret" "nuclei" true false w0 =
    (Raise (DatabaseCollectionExists "nuclei already exists"),
     {| remote := st; sent := [listing] |})
  /\ __init__ (demo_serve 100) demo_base "alice" "secret" "nuclei" true true w0 =
    (Ok demo_db,
     {| remote := [("nuclei", [])];
        sent := [listing; delete_request demo_db; put_request demo_db] |})
  /\ __init__ (demo_serve 100) demo_base "alice" "secret" "slides" true false w0 =
    (Ok (mkJsonDatabase "alice" "secret" "slides"
           "https://db.example/ords/alice/soda/latest/slides"),
     {| remote := [("nuclei", [feature 10 10 0]); ("slides", [])];
        sent := [listing;
                 mkRequest PUT "https://db.example/ords/alice/soda/latest/slides"
                   ("alice", "secret") None] |}).
Proof.
  intros st w0 listing.
  assert (Hl : listing_of (mkResponse 200 "OK" (Some (SodaStore.listing st))) [JStr "nuclei"]).
  { split; [reflexivity|]. eexists. eexists. repeat split; reflexivity. }
  split; [|split].
  - apply (proj1 (proj1 (init_create_cases (demo_serve 100) demo_base "alice" "secret"
                           "nuclei" w0 _ st [JStr "nuclei"] eq_refl Hl) eq_refl)).
  - apply (proj2 (proj1 (init_create_cases (demo_serve 100) demo_base "alice" "secret"
                           "nuclei" w0 _ st [JStr "nuclei"] eq_refl Hl) eq_refl)
             SodaStore.ok [] SodaStore.created [("nuclei", [])] eq_refl eq_refl eq_refl).
    vm_compute. discriminate.
  - apply (proj2 (init_create_cases (demo_serve 100) demo_base "alice" "secret"
                    "slides" w0 _ st [JStr "nuclei"] eq_refl Hl) eq_refl
             false SodaStore.created [("nuclei", [feature 10 10 0]); ("slides", [])] eq_refl).
    vm_compute. discriminate.
Defined.

(** C9.  [extract_metadata] returns the same empty mapping on a page with
    no metadata document and on a page with one metadata document whose
    [content] is the empty mapping; and in the latter state [add_metadata]
    does not raise metadata-already-exists: it goes on to send the insert
    of a second metadata document, and succeeds when that insert does. *)
Theorem empty_metadata_is_indistinguishable
    {Remote : Type} (serve : Remote -> request -> response * Remote)
    (self : JsonDatabase) (w : world Remote) (r : response) (s' : Remote) :
  serve (remote w) (metadata_query self) = (r, s') ->
  let w' := {| remote := s'; sent := sent w ++ [metadata_query self] |} in
  (forall more, page_of r [] more ->
   extract_metadata serve self w = (Ok (JObj []), w'))
  /\
  (forall d more, page_of r [d] more -> Py.get d "content" = Ok (JObj []) ->
   extract_metadata serve self w = (Ok (JObj []), w')
   /\
   forall meta r2 s2,
     let second := JObj [("type", JStr "Metadata"); ("content", meta)] in
     serve s' (mkRequest POST (__baseurl self) (__user self, __pword self) (Some second))
       = (r2, s2) ->
     is_2xx r2 = true ->
     add_metadata serve self meta w =
     (Ok 1, {| remote := s2;
               sent := sent w ++ [metadata_query self; insert_request self second] |})).
Proof.
  intros Hs w'. split.
  - intros more Hp. apply (extract_metadata_page serve self w r s' [] more Hs Hp).
  - intros d more Hp Hc. split.
    + rewrite (extract_metadata_page serve self w r s' [d] more Hs Hp), Hc. reflexivity.
    + intros meta r2 s2 second Hs2 H2.
      rewrite (add_metadata_inserts serve self meta w r s' (Some d) more r2 s2 Hs Hp).
      * rewrite H2. reflexivity.
      * exists (JObj []). split; [exact Hc|reflexivity].
      * exact Hs2.
Qed.

Lemma empty_metadata_is_indistinguishable_witness :
  let st := [("nuclei", [metadata_doc (JObj [])])] in
  let meta := JObj [("block_name", JStr "b123")] in
  extract_metadata (demo_serve 100) demo_db {| remote := [("nuclei", [])]; sent := [] |} =
    (Ok (JObj []), {| remote := [("nuclei", [])]; sent := [metadata_query demo_db] |})
  /\ extract_metadata (demo_serve 100) demo_db {| remote := st; sent := [] |} =
    (Ok (JObj []), {| remote := st; sent := [metadata_query demo_db] |})
  /\ add_metadata (demo_serve 100) demo_db meta {| remote := st; sent := [] |} =
    (Ok 1,
     {| remote := [("nuclei", [metadata_doc (JObj []); metadata_doc meta])];
        sent := [metadata_query demo_db; insert_request demo_db (metadata_doc meta)] |}).
Proof.
  intros st meta. split; [|split].
  - apply (proj1 (empty_metadata_is_indistinguishable (demo_serve 100) demo_db
                    {| remote := [("nuclei", [])]; sent := [] |}
                    (page_response [] false) [("nuclei", [])] eq_refl) false).
    apply page_response_page.
  - apply (proj2 (empty_metadata_is_indistinguishable (demo_serve 100) demo_db
                    {| remote := st; sent := [] |}
                    (page_response [metadata_doc (JObj [])] false) st eq_refl)
             (metadata_doc (JObj [])) false (page_response_page _ _) eq_refl).
  - apply (proj2 (proj2 (empty_metadata_is_indistinguishable (demo_serve 100) demo_db
                    {| remote := st; sent := [] |}
                    (page_response [metadata_doc (JObj [])] false) st eq_refl)
             (metadata_doc (JObj [])) false (page_response_page _ _) eq_refl)
             meta SodaStore.created
             [("nuclei", [metadata_doc (JObj []); metadata_doc meta])]
             eq_refl eq_refl).
Defined.

(** C10.  Constructing a [JsonDatabase] with the create flag unset sends no
    request and succeeds for every user, password and collection name,
    against every remote store: the result only records the credentials
    and the base URL [<base><user>/soda/latest/<collection>]. *)
Theorem init_without_create_is_silent
    {Remote : Type} (serve : Remote -> request -> response * Remote)
    (base usr pw coll : string) (overwrite : bool) (w : world Remote) :
  __init__ serve base usr pw coll false overwrite w =
  (Ok (mkJsonDatabase usr pw coll (base ++ (usr ++ "/soda/latest/" ++ coll))), w).
Proof. reflexivity. Qed.


(** * Further properties of the client *)

(** ** Listing and deleting *)

(** X1.  [list_collections] sends one GET to [<base><user>/soda/latest].
    On a status outside [200, 299] it raises the access error with status
    and reason, whatever [only_names] is.  On a 2xx answer: without
    [only_names] it returns the parsed body as it is; with [only_names] it
    returns the empty list when the body has no [items] entry, and
    otherwise the [name] fields of the items, in the order of the listing. *)
Theorem list_collections_cases
    {Remote : Type} (serve : Remote -> request -> response * Remote)
    (base : string) (self : JsonDatabase) (w : world Remote)
    (r : response) (s : Remote) :
  serve (remote w)
    (mkRequest GET (base ++ (__user self ++ "/soda/latest"))
       (__user self, __pword self) None) = (r, s) ->
  let w' := {| remote := s;
               sent := sent w ++ [list_request base (__user self) (__pword self)] |} in
  (is_2xx r = false ->
   forall only_names,
     list_collections serve base self only_names w =
     (Raise (DatabaseUnableToAccess (Py.str (status_code r) ++ " " ++ reason r)), w'))
  /\
  (is_2xx r = true ->
   forall j, resp_text r = Some j ->
     list_collections serve base self false w = (Ok j, w'))
  /\
  (is_2xx r = true ->
   forall kvs, resp_text r = Some (JObj kvs) -> Py.assoc "items" kvs = None ->
     list_collections serve base self true w = (Ok (JArr []), w'))
  /\
  (forall names, listing_of r names ->
     list_collections serve base self true w = (Ok (JArr names), w')).
Proof.
  intros Hs w'. repeat split.
  - intros H2 only_names. apply (list_collections_error serve base self w r s only_names Hs H2).
  - intros H2 j Hj. unfold is_2xx in H2.
    unfold list_collections, __make_get_request, requests_get, http, bind, lift, ret.
    rewrite Hs, H2, Hj. reflexivity.
  - intros H2 kvs Hj Hnone. unfold is_2xx in H2.
    unfold list_collections, __make_get_request, requests_get, http, bind, lift, ret.
    rewrite Hs, H2, Hj. cbn [json_loads Py.get]. rewrite Hnone. reflexivity.
  - intros names Hl. apply (list_collections_names serve base self w r s names Hs Hl).
Qed.

Lemma list_collections_cases_witness :
  let st := [("nuclei", [feature 10 10 0]); ("slides", [])] in
  list_collections (demo_serve 100) demo_base demo_db true {| remote := st; sent := [] |} =
  (Ok (JArr [JStr "nuclei"; JStr "slides"]),
   {| remote := st; sent := [list_request demo_base "alice" "secret"] |}).
Proof.
  intros st.
  apply (proj2 (proj2 (proj2
           (list_collections_cases (demo_serve 100) demo_base demo_db
              {| remote := st; sent := [] |}
              (mkResponse 200 "OK" (Some (SodaStore.listing st))) st eq_refl)))
           [JStr "nuclei"; JStr "slides"]).
  split; [reflexivity|]. eexists. eexists. repeat split; reflexivity.
Defined.

(** X2.  [delete_collection] sends one DELETE to the collection URL and
    returns 1 exactly when the status is 200: any other status, other 2xx
    statuses such as 204 included, raises the delete error with status and
    reason. *)
Theorem delete_collection_only_200
    {Remote : Type} (serve : Remote -> request -> response * Remote)
    (self : JsonDatabase) (w : world Remote) (r : response) (s : Remote) :
  serve (remote w)
    (mkRequest DELETE (__baseurl self) (__user self, __pword self) None) = (r, s) ->
  let w' := {| remote := s; sent := sent w ++ [delete_request self] |} in
  (status_code r = 200 -> delete_collection serve self w = (Ok 1, w'))
  /\
  (status_code r <> 200 ->
   delete_collection serve self w =
   (Raise (DatabaseUnableToDelete (Py.str (status_code r) ++ " " ++ reason r)), w')).
Proof.
  intros Hs w'. rewrite (delete_collection_run serve self w r s Hs). split.
  - intros ->. reflexivity.
  - intros Hne. destruct (Z.eqb_spec (status_code r) 200); [contradiction|reflexivity].
Qed.

Lemma delete_collection_only_200_witness :
  let no_content := fun _ : nat => mkResponse 204 "No Content" None in
  is_2xx (no_content 0%nat) = true /\
  delete_collection (scripted no_content) demo_db {| remote := 0%nat; sent := [] |} =
  (Raise (DatabaseUnableToDelete "204 No Content"),
   {| remote := 1%nat; sent := [delete_request demo_db] |}).
Proof.
  intros no_content. split; [reflexivity|].
  apply (proj2 (delete_collection_only_200 (scripted no_content) demo_db
                  {| remote := 0%nat; sent := [] |} (no_content 0%nat) 1%nat eq_refl)).
  vm_compute. discriminate.
Defined.

(** ** Creation, step by step *)

(** X3.  Construction with the create flag set stops at the listing when
    the listing fails: on a status outside [200, 299] it raises the access
    error with status and reason, whatever the overwrite flag, and neither
    a delete nor a create request is sent. *)
Theorem init_create_stops_when_listing_fails
    {Remote : Type} (serve : Remote -> request -> response * Remote)
    (base usr pw coll : string) (overwrite : bool) (w : world Remote)
    (r1 : response) (s1 : Remote) :
  serve (remote w) (mkRequest GET (base ++ (usr ++ "/soda/latest")) (usr, pw) None)
    = (r1, s1) ->
  is_2xx r1 = false ->
  __init__ serve base usr pw coll true overwrite w =
  (Raise (DatabaseUnableToAccess (Py.str (status_code r1) ++ " " ++ reason r1)),
   {| remote := s1; sent := sent w ++ [list_request base usr pw] |}).
Proof.
  intros Hs H2. unfold __init__, __create_collection, bind.
  rewrite (list_collections_error serve base
             (mkJsonDatabase usr pw coll (base ++ (usr ++ "/soda/latest/" ++ coll)))
             w r1 s1 true Hs H2).
  reflexivity.
Qed.

Lemma init_create_stops_when_listing_fails_witness :
  let denied := fun _ : nat => mkResponse 401 "Unauthorized" None in
  __init__ (scripted denied) demo_base "alice" "wrong" "nuclei" true true
    {| remote := 0%nat; sent := [] |} =
  (Raise (DatabaseUnableToAccess "401 Unauthorized"),
   {| remote := 1%nat; sent := [list_request demo_base "alice" "wrong"] |}).
Proof.
  intros denied.
  apply (init_create_stops_when_listing_fails (scripted denied) demo_base
           "alice" "wrong" "nuclei" true {| remote := 0%nat; sent := [] |}
           (denied 0%nat) 1%nat eq_refl eq_refl).
Defined.

Lemma create_collection_delete_fails
    {Remote : Type} (serve : Remote -> request -> response * Remote)
    (base : string) (self : JsonDatabase) (w : world Remote)
    (r1 : response) (s1 : Remote) (names : list json) (r2 : response) (s2 : Remote) :
  serve (remote w) (list_request base (__user self) (__pword self)) = (r1, s1) ->
  listing_of r1 names ->
  existsb (Py.eq_str (__collname self)) names = true ->
  serve s1 (delete_request self) = (r2, s2) ->
  status_code r2 <> 200 ->
  __create_collection serve base self true w =
  (Raise (DatabaseUnableToDelete (error_desc (status_code r2) (reason r2))),
   {| remote := s2;
      sent := sent w ++ [list_request base (__user self) (__pword self);
                         delete_request self] |}).
Proof.
  intros Hs Hl He Hd Hne. unfold __create_collection, bind at 1.
  rewrite (list_collections_names serve base self w r1 s1 names Hs Hl).
  unfold bind at 1, lift. cbn [Py.contains]. rewrite He.
  unfold bind at 1. unfold bind at 1.
  rewrite (delete_collection_run serve self
             {| remote := s1;
                sent := sent w ++ [list_request base (__user self) (__pword self)] |}
             r2 s2 Hd).
  destruct (Z.eqb_spec (status_code r2) 200); [contradiction|].
  cbn [sent]. rewrite <- app_assoc. reflexivity.
Qed.

(** X4.  With create and overwrite set and the name listed, a DELETE
    answered with any status other than 200 makes construction raise the
    delete error with status and reason; the create request is not sent. *)
Theorem init_overwrite_stops_when_delete_fails
    {Remote : Type} (serve : Remote -> request -> response * Remote)
    (base usr pw coll : string) (w : world Remote)
    (r1 : response) (s1 : Remote) (names : list json) (r2 : response) (s2 : Remote) :
  let self := mkJsonDatabase usr pw coll (base ++ (usr ++ "/soda/latest/" ++ coll)) in
  serve (remote w) (list_request base usr pw) = (r1, s1) ->
  listing_of r1 names ->
  existsb (Py.eq_str coll) names = true ->
  serve s1 (delete_request self) = (r2, s2) ->
  status_code r2 <> 200 ->
  __init__ serve base usr pw coll true true w =
  (Raise (DatabaseUnableToDelete (Py.str (status_code r2) ++ " " ++ reason r2)),
   {| remote := s2; sent := sent w ++ [list_request base usr pw; delete_request self] |}).
Proof.
  intros self Hs Hl He Hd Hne. unfold __init__, bind. fold self.
  rewrite (create_collection_delete_fails serve base self w r1 s1 names r2 s2
             Hs Hl He Hd Hne).
  reflexivity.
Qed.

Lemma init_overwrite_stops_when_delete_fails_witness :
  let answers := fun n => match n with
                          | O => mkResponse 200 "OK"
                                   (Some (SodaStore.listing [("nuclei", [])]))
                          | _ => mkResponse 204 "No Content" None
                          end in
  __init__ (scripted answers) demo_base "alice" "secret" "nuclei" true true
    {| remote := 0%nat; sent := [] |} =
  (Raise (DatabaseUnableToDelete "204 No Content"),
   {| remote := 2%nat;
      sent := [list_request demo_base "alice" "secret"; delete_request demo_db] |}).
Proof.
  intros answers.
  apply (init_overwrite_stops_when_delete_fails (scripted answers) demo_base
           "alice" "secret" "nuclei" {| remote := 0%nat; sent := [] |}
           (answers 0%nat) 1%nat [JStr "nuclei"] (answers 1%nat) 2%nat eq_refl).
  - split; [reflexivity|]. eexists. eexists. repeat split; reflexivity.
  - reflexivity.
  - reflexivity.
  - vm_compute. discriminate.
Defined.

(** X5.  Overwriting is not atomic: when the name is listed, the DELETE is
    answered 200 and the create request is then answered with a status
    above 299, construction raises the create error with that status and
    reason, after the delete has been sent and accepted.  A create request
    rejected for a name that is not listed raises the same error. *)
Theorem init_create_rejected
    {Remote : Type} (serve : Remote -> request -> response * Remote)
    (base usr pw coll : string) (w : world Remote)
    (r1 : response) (s1 : Remote) (names : list json) :
  let self := mkJsonDatabase usr pw coll (base ++ (usr ++ "/soda/latest/" ++ coll)) in
  serve (remote w) (list_request base usr pw) = (r1, s1) ->
  listing_of r1 names ->
  (existsb (Py.eq_str coll) names = true ->
   forall r2 s2 r3 s3,
     serve s1 (delete_request self) = (r2, s2) -> status_code r2 = 200 ->
     serve s2 (put_request self) = (r3, s3) -> 299 < status_code r3 ->
     __init__ serve base usr pw coll true true w =
     (Raise (DatabaseUnableToCreate (Py.str (status_code r3) ++ " " ++ reason r3)),
      {| remote := s3;
         sent := sent w ++ [list_request base usr pw; delete_request self;
                            put_request self] |}))
  /\
  (existsb (Py.eq_str coll) names = false ->
   forall overwrite r3 s3,
     serve s1 (put_request self) = (r3, s3) -> 299 < status_code r3 ->
     __init__ serve base usr pw coll true overwrite w =
     (Raise (DatabaseUnableToCreate (Py.str (status_code r3) ++ " " ++ reason r3)),
      {| remote := s3;
         sent := sent w ++ [list_request base usr pw; put_request self] |})).
Proof.
  intros self Hs Hl. split.
  - intros He r2 s2 r3 s3 Hd H200 Hp Hbad. unfold __init__, bind. fold self.
    rewrite (create_collection_overwrite serve base self w r1 s1 names r2 s2 r3 s3
               Hs Hl He Hd H200 Hp).
    destruct (Z.gtb_spec (status_code r3) 299); [reflexivity|lia].
  - intros He overwrite r3 s3 Hp Hbad. unfold __init__, bind. fold self.
    rewrite (create_collection_fresh serve base self overwrite w r1 s1 names r3 s3
               Hs Hl He Hp).
    destruct (Z.gtb_spec (status_code r3) 299); [reflexivity|lia].
Qed.

Lemma init_create_rejected_witness :
  let answers := fun n => match n with
                          | O => mkResponse 200 "OK"
                                   (Some (SodaStore.listing [("nuclei", [feature 10 10 0])]))
                          | S O => mkResponse 200 "OK" None
                          | _ => mkResponse 500 "Internal Server Error" None
                          end in
  __init__ (scripted answers) demo_base "alice" "secret" "nuclei" true true
    {| remote := 0%nat; sent := [] |} =
  (Raise (DatabaseUnableToCreate "500 Internal Server Error"),
   {| remote := 3%nat;
      sent := [list_request demo_base "alice" "secret"; delete_request demo_db;
               put_request demo_db] |}).
Proof.
  intros answers.
  assert (Hl : listing_of (answers 0%nat) [JStr "nuclei"]).
  { split; [reflexivity|]. eexists. eexists. repeat split; reflexivity. }
  apply (proj1 (init_create_rejected (scripted answers) demo_base
                  "alice" "secret" "nuclei" {| remote := 0%nat; sent := [] |}
                  (answers 0%nat) 1%nat [JStr "nuclei"] eq_refl Hl)
           eq_refl (answers 1%nat) 2%nat (answers 2%nat) 3%nat eq_refl eq_refl eq_refl).
  vm_compute. reflexivity.
Defined.

(** ** Inserting *)

(** X6.  [add_item] and [add_multiple_items] send one POST carrying the
    payload as it was passed, to the collection URL and to
    [<collection URL>?action=insert]; they return 1 on any status in
    [200, 299] without reading the response body, and otherwise raise the
    add-item error with status and reason. *)
Theorem insert_operations_classify
    {Remote : Type} (serve : Remote -> request -> response * Remote)
    (self : JsonDatabase) (payload : json) (w : world Remote)
    (r : response) (s : Remote) :
  let outcome_of (r : response) : outcome Z :=
    if (200 <=? status_code r) && (status_code r <=? 299) then Ok 1
    else Raise (DatabaseUnableToAddItem (Py.str (status_code r) ++ " " ++ reason r)) in
  (serve (remote w)
     (mkRequest POST (__baseurl self) (__user self, __pword self) (Some payload)) = (r, s) ->
   add_item serve self payload w =
   (outcome_of r,
    {| remote := s;
       sent := sent w ++ [mkRequest POST (__baseurl self) (__user self, __pword self)
                            (Some payload)] |}))
  /\
  (serve (remote w)
     (mkRequest POST (__baseurl self ++ "?action=insert") (__user self, __pword self)
        (Some payload)) = (r, s) ->
   add_multiple_items serve self payload w =
   (outcome_of r,
    {| remote := s;
       sent := sent w ++ [mkRequest POST (__baseurl self ++ "?action=insert")
                            (__user self, __pword self) (Some payload)] |})).
Proof.
  intros outcome_of. split; intros Hs.
  - apply (add_item_run serve self payload w r s Hs).
  - apply (add_multiple_items_run serve self payload w r s Hs).
Qed.

Lemma insert_operations_classify_witness :
  let st := [("nuclei", [feature 10 10 0])] in
  let new := [feature 20 20 1; feature 30 30 0] in
  add_multiple_items (demo_serve 100) demo_db (JArr new) {| remote := st; sent := [] |} =
  (Ok 1,
   {| remote := [("nuclei", feature 10 10 0 :: new)];
      sent := [mkRequest POST
                 "https://db.example/ords/alice/soda/latest/nuclei?action=insert"
                 ("alice", "secret") (Some (JArr new))] |}).
Proof.
  intros st new.
  apply (proj2 (insert_operations_classify (demo_serve 100) demo_db (JArr new)
                  {| remote := st; sent := [] |} SodaStore.ok
                  [("nuclei", feature 10 10 0 :: new)]) eq_refl).
Defined.

(** ** Metadata, case by case *)



(** ** Pages that are not as expected *)

Section Bodies.

Context {Remote : Type}.
Variable serve : Remote -> request -> response * Remote.

(** The first turn of [extract_items]'s loop on a 2xx answer, up to the
    reading of the body. *)
Lemma extract_items_while_step self z_layer fuel offset has_more items
    (w : world Remote) r s' j all_items c h docs :
  Py.truthy has_more = true ->
  serve (remote w) (query_request self (items_qdata z_layer) offset) = (r, s') ->
  is_2xx r = true ->
  resp_text r = Some j ->
  Py.get j "items" = Ok all_items ->
  Py.get j "count" = Ok (JNum c) ->
  Py.get j "hasMore" = Ok h ->
  (0 < c -> Py.comprehension (fun it => Py.get it "value") all_items = Ok docs) ->
  extract_items_while serve self z_layer (S fuel) offset has_more items w =
  extract_items_while serve self z_layer fuel (offset + c) h
    (if 0 <? c then items ++ docs else items)
    {| remote := s'; sent := sent w ++ [query_request self (items_qdata z_layer) offset] |}.
Proof.
  intros Ht Hs H2 Hj Hi Hc Hh Hdocs.
  cbn [extract_items_while]. rewrite Ht. unfold bind at 1.
  unfold query_request, items_qdata in Hs.
  rewrite (make_post_request_run serve self _ _ w r s' Hs), H2.
  unfold bind, lift. rewrite Hj. cbn [json_loads]. rewrite Hi, Hc, Hh. cbn [Py.int].
  rewrite Z.gtb_ltb. destruct (Z.ltb_spec 0 c) as [Hpos|Hle].
  - rewrite (Hdocs Hpos). reflexivity.
  - reflexivity.
Qed.

Lemma extract_items_while_bad_body self z_layer fuel offset has_more items
    (w : world Remote) r s' :
  Py.truthy has_more = true ->
  serve (remote w) (query_request self (items_qdata z_layer) offset) = (r, s') ->
  is_2xx r = true ->
  let w1 := {| remote := s';
               sent := sent w ++ [query_request self (items_qdata z_layer) offset] |} in
  (resp_text r = None ->
   extract_items_while serve self z_layer (S fuel) offset has_more items w =
   (Raise (PyError JSONDecodeError), w1))
  /\
  (forall j, resp_text r = Some j -> (forall kvs, j <> JObj kvs) ->
   extract_items_while serve self z_layer (S fuel) offset has_more items w =
   (Raise (PyError AttributeError), w1))
  /\
  (forall kvs, resp_text r = Some (JObj kvs) -> Py.assoc "count" kvs = None ->
   extract_items_while serve self z_layer (S fuel) offset has_more items w =
   (Raise (PyError TypeError), w1)).
Proof.
  intros Ht Hs H2 w1. unfold query_request, items_qdata in Hs.
  repeat split.
  - intros Hj. cbn [extract_items_while]. rewrite Ht. unfold bind at 1.
    rewrite (make_post_request_run serve self _ _ w r s' Hs), H2.
    unfold bind, lift. rewrite Hj. reflexivity.
  - intros j Hj Hno. cbn [extract_items_while]. rewrite Ht. unfold bind at 1.
    rewrite (make_post_request_run serve self _ _ w r s' Hs), H2.
    unfold bind, lift. rewrite Hj. cbn [json_loads].
    destruct j as [| | | | |kvs]; try reflexivity.
    exfalso. apply (Hno kvs). reflexivity.
  - intros kvs Hj Hnone. cbn [extract_items_while]. rewrite Ht. unfold bind at 1.
    rewrite (make_post_request_run serve self _ _ w r s' Hs), H2.
    unfold bind, lift. rewrite Hj. cbn [json_loads Py.get]. rewrite Hnone.
    destruct (Py.assoc "items" kvs); destruct (Py.assoc "hasMore" kvs); reflexivity.
Qed.

End Bodies.

(** X8.  A 2xx answer whose body is not what [extract_items] expects
    makes it fail with an uncaught Python error, not with a database error:
    a body that is not JSON raises the JSON decoding error, a JSON body
    that is not an object raises [AttributeError], and an object without a
    [count] entry raises [TypeError].  The request has been sent. *)
Theorem extract_items_malformed_body
    {Remote : Type} (serve : Remote -> request -> response * Remote)
    (self : JsonDatabase) (z_layer : json) (fuel : nat) (w : world Remote)
    (r : response) (s' : Remote) :
  serve (remote w)
    (mkRequest POST (__baseurl self ++ "?action=query&offset=0")
       (__user self, __pword self)
       (Some (JObj [("geometry.coordinates[2]", JObj [("$eq", z_layer)])]))) = (r, s') ->
  is_2xx r = true ->
  let w1 := {| remote := s';
               sent := sent w ++ [query_request self (items_qdata z_layer) 0] |} in
  (resp_text r = None ->
   extract_items serve self z_layer (S fuel) w = (Raise (PyError JSONDecodeError), w1))
  /\
  (forall j, resp_text r = Some j -> (forall kvs, j <> JObj kvs) ->
   extract_items serve self z_layer (S fuel) w = (Raise (PyError AttributeError), w1))
  /\
  (forall kvs, resp_text r = Some (JObj kvs) -> Py.assoc "count" kvs = None ->
   extract_items serve self z_layer (S fuel) w = (Raise (PyError TypeError), w1)).
Proof.
  intros Hs H2 w1. unfold extract_items.
  apply (extract_items_while_bad_body serve self z_layer fuel 0 (JBool true) [] w r s'
           eq_refl Hs H2).
Qed.

Lemma extract_items_malformed_body_witness :
  let gateway := fun _ : nat => mkResponse 200 "OK" None in
  extract_items (scripted gateway) demo_db (JNum 0) 5 {| remote := 0%nat; sent := [] |} =
  (Raise (PyError JSONDecodeError),
   {| remote := 1%nat; sent := [demo_query (items_qdata (JNum 0)) "0"] |}).
Proof.
  intros gateway.
  apply (proj1 (extract_items_malformed_body (scripted gateway) demo_db (JNum 0) 4
                  {| remote := 0%nat; sent := [] |} (gateway 0%nat) 1%nat
                  eq_refl eq_refl) eq_refl).
Defined.

(** X9.  A 2xx page whose [hasMore] entry is falsy, or absent, is the last
    one: [extract_items] returns after this single request.  What it
    returns is decided by the [count] entry alone: the [value] fields of
    the items when [count] is positive, nothing when it is zero or
    negative, in which case the [items] entry is not looked at. *)
Theorem extract_items_single_page
    {Remote : Type} (serve : Remote -> request -> response * Remote)
    (self : JsonDatabase) (z_layer : json) (fuel : nat) (w : world Remote)
    (r : response) (s' : Remote) (j all_items h : json) (c : Z) (docs : list json) :
  serve (remote w) (query_request self (items_qdata z_layer) 0) = (r, s') ->
  is_2xx r = true ->
  resp_text r = Some j ->
  Py.get j "items" = Ok all_items ->
  Py.get j "count" = Ok (JNum c) ->
  Py.get j "hasMore" = Ok h ->
  Py.truthy h = false ->
  (0 < c -> Py.comprehension (fun it => Py.get it "value") all_items = Ok docs) ->
  extract_items serve self z_layer (S fuel) w =
  (Ok (if 0 <? c then docs else []),
   {| remote := s'; sent := sent w ++ [query_request self (items_qdata z_layer) 0] |}).
Proof.
  intros Hs H2 Hj Hi Hc Hh Hf Hdocs. unfold extract_items.
  rewrite (extract_items_while_step serve self z_layer fuel 0 (JBool true) [] w r s'
             j all_items c h docs eq_refl Hs H2 Hj Hi Hc Hh Hdocs).
  destruct fuel; cbn [extract_items_while]; rewrite Hf; reflexivity.
Qed.

Lemma extract_items_single_page_witness :
  let body := JObj [("items", JArr [JObj [("value", feature 10 10 0)]]); ("count", JNum 0)] in
  let odd := fun _ : nat => mkResponse 200 "OK" (Some body) in
  extract_items (scripted odd) demo_db (JNum 0) 5 {| remote := 0%nat; sent := [] |} =
  (Ok [], {| remote := 1%nat; sent := [demo_query (items_qdata (JNum 0)) "0"] |}).
Proof.
  intros body odd.
  apply (extract_items_single_page (scripted odd) demo_db (JNum 0) 4
           {| remote := 0%nat; sent := [] |} (odd 0%nat) 1%nat body
           (JArr [JObj [("value", feature 10 10 0)]]) JNull 0 []
           eq_refl eq_refl eq_refl eq_refl eq_refl eq_refl eq_refl).
  intros H. inversion H.
Defined.

(** X10.  The offset of the next request is the [count] entry of the page
    just read, whatever the number of items the page carries.  On two 2xx
    pages, the first with count [c1] and a truthy [hasMore], the second
    with a falsy one, [extract_items] sends its requests at offsets 0 and
    [c1], and returns the documents of each page whose count is positive. *)
Theorem extract_items_offset_follows_count
    {Remote : Type} (serve : Remote -> request -> response * Remote)
    (self : JsonDatabase) (z_layer : json) (fuel : nat) (w : world Remote)
    (r1 r2 : response) (s1 s2 : Remote)
    (items1 h1 items2 h2 : json) (c1 c2 : Z) (docs1 docs2 : list json) :
  serve (remote w) (query_request self (items_qdata z_layer) 0) = (r1, s1) ->
  body_of r1 items1 c1 h1 ->
  Py.truthy h1 = true ->
  (0 < c1 -> Py.comprehension (fun it => Py.get it "value") items1 = Ok docs1) ->
  serve s1 (query_request self (items_qdata z_layer) c1) = (r2, s2) ->
  body_of r2 items2 c2 h2 ->
  Py.truthy h2 = false ->
  (0 < c2 -> Py.comprehension (fun it => Py.get it "value") items2 = Ok docs2) ->
  extract_items serve self z_layer (S (S fuel)) w =
  (Ok ((if 0 <? c1 then docs1 else []) ++ (if 0 <? c2 then docs2 else [])),
   {| remote := s2;
      sent := sent w ++ [query_request self (items_qdata z_layer) 0;
                         query_request self (items_qdata z_layer) c1] |}).
Proof.
  intros Hs1 (H21 & j1 & Hj1 & Hi1 & Hc1 & Hh1) Ht1 Hd1
         Hs2 (H22 & j2 & Hj2 & Hi2 & Hc2 & Hh2) Hf2 Hd2.
  unfold extract_items.
  rewrite (extract_items_while_step serve self z_layer (S fuel) 0 (JBool true) [] w r1 s1
             j1 items1 c1 h1 docs1 eq_refl Hs1 H21 Hj1 Hi1 Hc1 Hh1 Hd1).
  change (0 + c1) with c1.
  rewrite (extract_items_while_step serve self z_layer fuel c1 h1
             (if 0 <? c1 then [] ++ docs1 else [])
             {| remote := s1;
                sent := sent w ++ [query_request self (items_qdata z_layer) 0] |}
             r2 s2 j2 items2 c2 h2 docs2 Ht1 Hs2 H22 Hj2 Hi2 Hc2 Hh2 Hd2).
  cbn [sent app]. rewrite <- app_assoc.
  destruct fuel; cbn [extract_items_while]; rewrite Hf2;
    destruct (0 <? c1); destruct (0 <? c2); rewrite ?app_nil_r; reflexivity.
Qed.

Lemma extract_items_offset_follows_count_witness :
  let first := JObj [("items", JArr [JObj [("value", feature 10 10 0)]]);
                     ("count", JNum 7); ("hasMore", JBool true)] in
  let second := JObj [("items", JArr []); ("count", JNum 0); ("hasMore", JBool false)] in
  let answers := fun n => match n with
                          | O => mkResponse 200 "OK" (Some first)
                          | _ => mkResponse 200 "OK" (Some second)
                          end in
  extract_items (scripted answers) demo_db (JNum 0) 5 {| remote := 0%nat; sent := [] |} =
  (Ok [feature 10 10 0],
   {| remote := 2%nat;
      sent := [demo_query (items_qdata (JNum 0)) "0";
               demo_query (items_qdata (JNum 0)) "7"] |}).
Proof.
  intros first second answers.
  apply (extract_items_offset_follows_count (scripted answers) demo_db (JNum 0) 3
           {| remote := 0%nat; sent := [] |} (answers 0%nat) (answers 1%nat) 1%nat 2%nat
           (JArr [JObj [("value", feature 10 10 0)]]) (JBool true)
           (JArr []) (JBool false) 7 0 [feature 10 10 0] []
           eq_refl).
  - split; [reflexivity|]. exists first. repeat split; reflexivity.
  - reflexivity.
  - intros _. reflexivity.
  - reflexivity.
  - split; [reflexivity|]. exists second. repeat split; reflexivity.
  - reflexivity.
  - intros H. inversion H.
Defined.

(** X11.  A 2xx answer to the metadata query that is not as expected:
    a body that is not JSON, one that is not an object, and an object
    without [count] make [extract_metadata] fail with an uncaught Python
    error ([count > 1] is a type error on [None]); a count of 1 with an
    empty item list raises [IndexError]; and a first document without a
    [content] entry makes it return [None]. *)
Theorem extract_metadata_odd_bodies
    {Remote : Type} (serve : Remote -> request -> response * Remote)
    (self : JsonDatabase) (w : world Remote) (r : response) (s' : Remote) :
  serve (remote w) (metadata_query self) = (r, s') ->
  is_2xx r = true ->
  let w1 := {| remote := s'; sent := sent w ++ [metadata_query self] |} in
  (resp_text r = None ->
   extract_metadata serve self w = (Raise (PyError JSONDecodeError), w1))
  /\
  (forall j, resp_text r = Some j -> (forall kvs, j <> JObj kvs) ->
   extract_metadata serve self w = (Raise (PyError AttributeError), w1))
  /\
  (forall kvs, resp_text r = Some (JObj kvs) -> Py.assoc "count" kvs = None ->
   extract_metadata serve self w = (Raise (PyError TypeError), w1))
  /\
  (forall h, body_of r (JArr []) 1 h ->
   extract_metadata serve self w = (Raise (PyError IndexError), w1))
  /\
  (forall h fields rest,
     body_of r (JArr (JObj [("value", JObj fields)] :: rest)) 1 h ->
     Py.assoc "content" fields = None ->
     extract_metadata serve self w = (Ok JNull, w1)).
Proof.
  intros Hs H2 w1.
  assert (Hrun : extract_metadata serve self w =
                 bind (lift (json_loads (Some (resp_text r))))
                   (fun returned_data =>
                    bind (lift (Py.get returned_data "items")) (fun all_items =>
                    bind (lift (Py.get returned_data "count")) (fun count =>
                    bind (lift (Py.int count)) (fun n =>
                    if n >? 1 then
                      raise (DatabaseTooManyMetadataDocs
                               ("Found " ++ Py.str n
                                         ++ " metadata documents. Only one is allowed."))
                    else if n =? 0 then ret (JObj [])
                    else
                      bind (lift (Py.item0 all_items)) (fun first =>
                      bind (lift (Py.get first "value")) (fun value =>
                      bind (lift (Py.get value "content")) (fun extracted =>
                      ret extracted)))))))
                   w1).
  { unfold extract_metadata, bind at 1.
    rewrite (make_post_request_run serve self _ _ w r s' Hs), H2. reflexivity. }
  rewrite Hrun. unfold bind, lift, ret. repeat split.
  - intros Hj. rewrite Hj. reflexivity.
  - intros j Hj Hno. rewrite Hj. cbn [json_loads].
    destruct j as [| | | | |kvs]; try reflexivity.
    exfalso. apply (Hno kvs). reflexivity.
  - intros kvs Hj Hnone. rewrite Hj. cbn [json_loads Py.get]. rewrite Hnone.
    destruct (Py.assoc "items" kvs); reflexivity.
  - intros h (_ & j & Hj & Hi & Hc & _). rewrite Hj. cbn [json_loads].
    rewrite Hi, Hc. reflexivity.
  - intros h fields rest (_ & j & Hj & Hi & Hc & _) Hnone. rewrite Hj. cbn [json_loads].
    rewrite Hi, Hc. cbn. rewrite Hnone. reflexivity.
Qed.

Lemma extract_metadata_odd_bodies_witness :
  let body := JObj [("items", JArr [JObj [("value", JObj [("type", JStr "Metadata")])]]);
                    ("count", JNum 1); ("hasMore", JBool false)] in
  let answers := fun _ : nat => mkResponse 200 "OK" (Some body) in
  extract_metadata (scripted answers) demo_db {| remote := 0%nat; sent := [] |} =
  (Ok JNull, {| remote := 1%nat; sent := [metadata_query demo_db] |}).
Proof.
  intros body answers.
  apply (proj2 (proj2 (proj2 (proj2
           (extract_metadata_odd_bodies (scripted answers) demo_db
              {| remote := 0%nat; sent := [] |} (answers 0%nat) 1%nat eq_refl eq_refl))))
           (JBool false) [("type", JStr "Metadata")] []).
  - split; [reflexivity|]. exists body. repeat split; reflexivity.
  - reflexivity.
Defined.

(** ** A result set served page by page *)

Section Paged.

Variable limit : nat.
Variable ms : list json.
Variable self : JsonDatabase.
Variable q : json.

Hypothesis limit_pos : (0 < limit)%nat.

Lemma paged_page i :
  page_of (paged limit ms i) (firstn limit (skipn (i * limit) ms))
    (i * limit + limit <? List.length ms)%nat.
Proof. apply page_response_page. Qed.

(** [S p] pages are left when between [p * limit] (exclusive, for
    [p > 0]) and [S p * limit] documents are. *)
Lemma paged_run p : forall k items log fuel,
  (k * limit <= List.length ms)%nat ->
  (List.length ms - k * limit <= S p * limit)%nat ->
  (0 < p -> p * limit < List.length ms - k * limit)%nat ->
  (p < fuel)%nat ->
  paginate (scripted (paged limit ms)) self q fuel (Z.of_nat (k * limit)) (JBool true)
    items {| remote := k; sent := log |} =
  (Ok (items ++ skipn (k * limit) ms),
   {| remote := (k + S p)%nat;
      sent := log ++ map (fun i => query_request self q (Z.of_nat (i * limit)))
                         (seq k (S p)) |}).
Proof.
  induction p as [|p IH]; intros k items log fuel Hk Hle Hgt Hfuel;
    (destruct fuel as [|fuel]; [inversion Hfuel|]);
    rewrite (scripted_page (paged limit ms) self q fuel _ items k log _ _ (paged_page k)).
  - assert (Hmore : (k * limit + limit <? List.length ms)%nat = false).
    { apply Nat.ltb_ge. lia. }
    rewrite Hmore.
    rewrite firstn_all2 by (rewrite length_skipn; lia).
    destruct fuel; cbn [paginate Py.truthy ret map seq]; rewrite Nat.add_1_r; reflexivity.
  - assert (Hlt : (S p * limit < List.length ms - k * limit)%nat) by (apply Hgt; lia).
    assert (Hmore : (k * limit + limit <? List.length ms)%nat = true).
    { apply Nat.ltb_lt. simpl in Hlt. nia. }
    rewrite Hmore.
    assert (Hlen : List.length (firstn limit (skipn (k * limit) ms)) = limit).
    { rewrite length_firstn, length_skipn. simpl in Hlt. nia. }
    rewrite Hlen, <- Nat2Z.inj_add.
    replace (k * limit + limit)%nat with (S k * limit)%nat by (simpl; lia).
    rewrite (IH (S k)).
    + rewrite <- !app_assoc.
      replace (skipn (S k * limit) ms) with (skipn limit (skipn (k * limit) ms))
        by (rewrite skipn_skipn; f_equal; simpl; lia).
      rewrite firstn_skipn. cbn [seq map].
      replace (S k + S p)%nat with (k + S (S p))%nat by lia. reflexivity.
    + simpl in *. nia.
    + simpl in *. nia.
    + intros Hp. simpl in *. nia.
    + lia.
Qed.

End Paged.

(** X12.  A result set [ms] served [limit] documents per page ([limit]
    positive) is put together again: each of the three paginated extracts
    returns exactly [ms], in order, after [(length ms - 1) / limit + 1]
    requests, sent at the offsets 0, [limit], [2 * limit], ... *)
Theorem paged_extract_returns_all
    (limit : nat) (ms : list json) (self : JsonDatabase) (z_layer : json)
    (x0 y0 xf yf tile_size : Z) (fuel : nat) :
  (0 < limit)%nat ->
  let pages := S ((List.length ms - 1) / limit) in
  (pages <= fuel)%nat ->
  let w0 := {| remote := 0%nat; sent := [] |} in
  let done q :=
    (Ok ms,
     {| remote := pages;
        sent := map (fun i => query_request self q (Z.of_nat (i * limit)))
                    (seq 0 pages) |}) in
  extract_items (scripted (paged limit ms)) self z_layer fuel w0 =
    done (items_qdata z_layer)
  /\ extract_tile_data (scripted (paged limit ms)) self z_layer x0 y0 tile_size fuel w0 =
    done (region_qdata z_layer x0 y0 (x0 + tile_size - 1) (y0 + tile_size - 1))
  /\ extract_region (scripted (paged limit ms)) self z_layer x0 y0 xf yf fuel w0 =
    done (region_qdata z_layer x0 y0 xf yf).
Proof.
  intros Hpos pages Hfuel w0 done.
  assert (Hrun : forall q,
             paginate (scripted (paged limit ms)) self q fuel 0 (JBool true) [] w0 = done q).
  { intros q. unfold w0, done, pages.
    assert (Hdiv : (limit * ((List.length ms - 1) / limit) <= List.length ms - 1)%nat)
      by (apply Nat.Div0.mul_div_le).
    assert (Hdiv' : (List.length ms - 1 < limit * S ((List.length ms - 1) / limit))%nat)
      by (apply Nat.mul_succ_div_gt; lia).
    apply (paged_run limit ms self q Hpos ((List.length ms - 1) / limit) 0 [] [] fuel).
    - simpl. lia.
    - simpl in *. nia.
    - intros Hp. simpl. nia.
    - unfold pages in Hfuel. lia. }
  unfold extract_items, extract_tile_data, extract_region.
  rewrite extract_items_while_paginate, extract_tile_data_while_paginate,
    extract_region_while_paginate.
  rewrite !Hrun. repeat split.
Qed.

Lemma paged_extract_returns_all_witness :
  let ms := [feature 10 10 0; feature 30 30 0; feature 40 40 0; feature 50 50 0;
             feature 60 60 0] in
  extract_region (scripted (paged 2 ms)) demo_db (JNum 0) 0 0 99 99 3
    {| remote := 0%nat; sent := [] |} =
  (Ok ms,
   {| remote := 3%nat;
      sent := [demo_query (region_qdata (JNum 0) 0 0 99 99) "0";
               demo_query (region_qdata (JNum 0) 0 0 99 99) "2";
               demo_query (region_qdata (JNum 0) 0 0 99 99) "4"] |}).
Proof.
  intros ms.
  apply (proj2 (proj2 (paged_extract_returns_all 2 ms demo_db (JNum 0) 0 0 99 99 100 3
                         (Nat.lt_0_succ 1) (le_n 3)))).
Defined.

(** ** Metadata against the reference store *)

Lemma demo_serve_metadata_query l docs :
  demo_serve l [("nuclei", docs)] (metadata_query demo_db) =
  (SodaStore.answer_query l docs (JObj [("type", JObj [("$eq", JStr "Metadata")])]) 0,
   [("nuclei", docs)]).
Proof. reflexivity. Qed.

Lemma demo_serve_insert l docs doc :
  demo_serve l [("nuclei", docs)] (insert_request demo_db doc) =
  (SodaStore.created, [("nuclei", docs ++ [doc])]).
Proof. reflexivity. Qed.

(** X13.  Insert and look-up of metadata, against the reference store
    serving at least one document per page: on a collection without
    metadata document (whatever else it holds), [add_metadata] of a truthy
    mapping succeeds and appends the wrapped mapping; [extract_metadata]
    then returns exactly the mapping passed in; and any further
    [add_metadata] raises metadata-already-exists and leaves the
    collection as it is. *)
Theorem metadata_round_trip (l : nat) (docs : list json) (meta : json) :
  filter (SodaStore.matches (JObj [("type", JObj [("$eq", JStr "Metadata")])])) docs = [] ->
  Py.truthy meta = true ->
  let serve := demo_serve (S l) in
  let stored := [("nuclei", docs ++ [metadata_doc meta])] in
  add_metadata serve demo_db meta {| remote := [("nuclei", docs)]; sent := [] |} =
    (Ok 1,
     {| remote := stored;
        sent := [metadata_query demo_db; insert_request demo_db (metadata_doc meta)] |})
  /\ extract_metadata serve demo_db {| remote := stored; sent := [] |} =
    (Ok meta, {| remote := stored; sent := [metadata_query demo_db] |})
  /\ forall again,
       add_metadata serve demo_db again {| remote := stored; sent := [] |} =
       (Raise (DatabaseMetadataAlreadyExists
                 "A collection can have only 1 metadata document."),
        {| remote := stored; sent := [metadata_query demo_db] |}).
Proof.
  intros Hnone Ht serve stored.
  assert (Hbefore : page_of
            (SodaStore.answer_query (S l) docs
               (JObj [("type", JObj [("$eq", JStr "Metadata")])]) 0) [] false).
  { unfold SodaStore.answer_query. rewrite Hnone. apply page_response_page. }
  assert (Hafter : page_of
            (SodaStore.answer_query (S l) (docs ++ [metadata_doc meta])
               (JObj [("type", JObj [("$eq", JStr "Metadata")])]) 0)
            [metadata_doc meta] false).
  { unfold SodaStore.answer_query. rewrite filter_app, Hnone.
    change (filter _ [metadata_doc meta]) with [metadata_doc meta].
    cbn [app skipn firstn]. rewrite firstn_nil. apply page_response_page. }
  split; [|split].
  - apply (add_metadata_inserts serve demo_db meta
             {| remote := [("nuclei", docs)]; sent := [] |} _ _ None false
             SodaStore.created stored
             (demo_serve_metadata_query (S l) docs) Hbefore I
             (demo_serve_insert (S l) docs (metadata_doc meta))).
  - rewrite (extract_metadata_page serve demo_db {| remote := stored; sent := [] |} _ _
               [metadata_doc meta] false
               (demo_serve_metadata_query (S l) (docs ++ [metadata_doc meta])) Hafter).
    reflexivity.
  - intros again.
    apply (add_metadata_rejects serve demo_db again {| remote := stored; sent := [] |} _ _
             (metadata_doc meta) meta false
             (demo_serve_metadata_query (S l) (docs ++ [metadata_doc meta])) Hafter
             eq_refl Ht).
Qed.

Lemma metadata_round_trip_witness :
  let docs := [feature 10 10 0; feature 20 20 1] in
  let stored := [("nuclei", docs ++ [metadata_doc example_meta])] in
  extract_metadata (demo_serve 1) demo_db {| remote := stored; sent := [] |} =
  (Ok example_meta, {| remote := stored; sent := [metadata_query demo_db] |}).
Proof.
  intros docs stored.
  apply (proj1 (proj2 (metadata_round_trip 0 docs example_meta eq_refl eq_refl))).
Defined.

(** ** The example script *)

(** X14.  [example_add_metadata_twice] creates its collection without the
    overwrite flag.  When the collection is already listed (as after an
    earlier run of the example), it stops with collection-exists before
    adding or printing anything.  When it is not listed and the store
    accepts the creation and the first insert and then reports the stored
    document, the second [add_metadata] raises metadata-already-exists:
    the first message is printed, the second one never. *)
Theorem example_add_metadata_twice_runs
    {Remote : Type} (serve : Remote -> request -> response * Remote)
    (base usr pw : string) (out : list string) (w : world Remote)
    (r1 : response) (s1 : Remote) (names : list json) :
  let coll := "b123__p123__20201017" in
  let self := mkJsonDatabase usr pw coll (base ++ (usr ++ "/soda/latest/" ++ coll)) in
  let wrapped := JObj [("type", JStr "Metadata"); ("content", example_meta)] in
  serve (remote w) (list_request base usr pw) = (r1, s1) ->
  listing_of r1 names ->
  (existsb (Py.eq_str coll) names = true ->
   example_add_metadata_twice serve base usr pw out w =
   ((Raise (DatabaseCollectionExists "b123__p123__20201017 already exists"),
     {| remote := s1; sent := sent w ++ [list_request base usr pw] |}), out))
  /\
  (existsb (Py.eq_str coll) names = false ->
   forall r2 s2 r3 s3 more3 r4 s4 r5 s5 d more5,
     serve s1 (put_request self) = (r2, s2) -> status_code r2 <= 299 ->
     serve s2 (metadata_query self) = (r3, s3) -> page_of r3 [] more3 ->
     serve s3 (insert_request self wrapped) = (r4, s4) -> is_2xx r4 = true ->
     serve s4 (metadata_query self) = (r5, s5) -> page_of r5 [d] more5 ->
     Py.get d "content" = Ok example_meta ->
     example_add_metadata_twice serve base usr pw out w =
     ((Raise (DatabaseMetadataAlreadyExists
                "A collection can have only 1 metadata document."),
       {| remote := s5;
          sent := sent w ++ [list_request base usr pw; put_request self;
                             metadata_query self; insert_request self wrapped;
                             metadata_query self] |}),
      out ++ ["Added metadata for the first time"])).
Proof.
  intros coll self wrapped Hs Hl. split.
  - intros He. unfold example_add_metadata_twice, then_, call, __init__, bind. fold coll self.
    rewrite (create_collection_exists serve base self w r1 s1 names Hs Hl He).
    reflexivity.
  - intros He r2 s2 r3 s3 more3 r4 s4 r5 s5 d more5 Hp Hok Hq1 Hp1 Hi H2 Hq2 Hp2 Hc.
    unfold example_add_metadata_twice, then_ at 1, call at 1.
    unfold __init__, bind. fold coll self.
    rewrite (create_collection_fresh serve base self false w r1 s1 names r2 s2 Hs Hl He Hp).
    destruct (Z.gtb_spec (status_code r2) 299) as [Hbad|_]; [lia|].
    unfold ret, then_ at 1, call at 1.
    rewrite (add_metadata_inserts serve self example_meta
               {| remote := s2;
                  sent := sent w ++ [list_request base (__user self) (__pword self);
                                     put_request self] |}
               r3 s3 None more3 r4 s4 Hq1 Hp1 I Hi), H2.
    unfold then_ at 1, print at 1. unfold then_, call. cbn [sent remote]. fold wrapped.
    rewrite (add_metadata_rejects serve self example_meta
               {| remote := s4;
                  sent := (sent w ++ [list_request base (__user self) (__pword self);
                                      put_request self])
                          ++ [metadata_query self; insert_request self wrapped] |}
               r5 s5 d example_meta more5 Hq2 Hp2 Hc eq_refl).
    cbn [sent]. rewrite <- !app_assoc. reflexivity.
Qed.

Lemma example_add_metadata_twice_runs_witness :
  let self := mkJsonDatabase "alice" "secret" "b123__p123__20201017"
                "https://db.example/ords/alice/soda/latest/b123__p123__20201017" in
  let stored := [("b123__p123__20201017", [metadata_doc example_meta])] in
  example_add_metadata_twice (demo_serve 100) demo_base "alice" "secret" []
    {| remote := []; sent := [] |} =
  ((Raise (DatabaseMetadataAlreadyExists "A collection can have only 1 metadata document."),
    {| remote := stored;
       sent := [list_request demo_base "alice" "secret"; put_request self;
                metadata_query self; insert_request self (metadata_doc example_meta);
                metadata_query self] |}),
   ["Added metadata for the first time"])
  /\
  example_add_metadata_twice (demo_serve 100) demo_base "alice" "secret" []
    {| remote := stored; sent := [] |} =
  ((Raise (DatabaseCollectionExists "b123__p123__20201017 already exists"),
    {| remote := stored; sent := [list_request demo_base "alice" "secret"] |}), []).
Proof.
  intros self stored. split.
  - apply (proj2 (example_add_metadata_twice_runs (demo_serve 100) demo_base
                    "alice" "secret" [] {| remote := []; sent := [] |}
                    (mkResponse 200 "OK" (Some (SodaStore.listing []))) [] [] eq_refl
                    (conj eq_refl
                       (ex_intro _ (SodaStore.listing [])
                          (ex_intro _ []
                             (conj eq_refl (conj eq_refl eq_refl))))))
             eq_refl
             SodaStore.created [("b123__p123__20201017", [])]
             (page_response [] false) [("b123__p123__20201017", [])] false
             SodaStore.created stored
             (page_response [metadata_doc example_meta] false) stored
             (metadata_doc example_meta) false
             eq_refl).
    + vm_compute. discriminate.
    + reflexivity.
    + apply page_response_page.
    + reflexivity.
    + reflexivity.
    + reflexivity.
    + apply page_response_page.
    + reflexivity.
  - apply (proj1 (example_add_metadata_twice_runs (demo_serve 100) demo_base
                    "alice" "secret" [] {| remote := stored; sent := [] |}
                    (mkResponse 200 "OK" (Some (SodaStore.listing stored))) stored
                    [JStr "b123__p123__20201017"] eq_refl
                    (conj eq_refl
                       (ex_intro _ (SodaStore.listing stored)
                          (ex_intro _ [JObj [("name", JStr "b123__p123__20201017")]]
                             (conj eq_refl (conj eq_refl eq_refl))))))
             eq_refl).
Defined.

(** ** The step budget *)

Section Budget.

Context {Remote : Type}.
Variable serve : Remote -> request -> response * Remote.





End Budget.



(** ** What the extracts send *)

(** X16.  Whatever the store answers and whatever the budget,
    [extract_items] and [extract_region] add to the requests sent nothing
    but POST queries on the collection URL carrying their one predicate:
    they never list, create, delete or insert. *)
Theorem paginated_extracts_only_query
    {Remote : Type} (serve : Remote -> request -> response * Remote)
    (self : JsonDatabase) (z_layer : json) (x0 y0 xf yf : Z) (fuel : nat)
    (w : world Remote) :
  (exists offs,
     sent (snd (extract_items serve self z_layer fuel w)) =
     sent w ++
     map (fun offset =>
            mkRequest POST
              (__baseurl self ++ ("?action=query&offset=" ++ Py.str offset))
              (__user self, __pword self)
              (Some (JObj [("geometry.coordinates[2]", JObj [("$eq", z_layer)])])))
         offs)
  /\
  (exists offs,
     sent (snd (extract_region serve self z_layer x0 y0 xf yf fuel w)) =
     sent w ++
     map (fun offset =>
            mkRequest POST
              (__baseurl self ++ ("?action=query&offset=" ++ Py.str offset))
              (__user self, __pword self)
              (Some (JObj [("geometry.coordinates[2]", JObj [("$eq", z_layer)]);
                           ("geometry.coordinates[0]",
                            JObj [("$between", JArr [JNum x0; JNum xf])]);
                           ("geometry.coordinates[1]",
                            JObj [("$between", JArr [JNum y0; JNum yf])])])))
         offs).
Proof.
  unfold extract_items, extract_region.
  rewrite extract_items_while_paginate, extract_region_while_paginate.
  split; apply paginate_sent.
Qed.
